(** * MERN authentication backend: credential and verification lifecycle

    A shallow embedding of the server code of the project
    (models/userModel.js, controller/authController.js,
    middleware/userAuth.js, routes/userRoutes.js) and of the verification
    service described by the specification, with the properties of the
    credential lifecycle proved over it.

    Conventions of the embedding:
    - the MongoDB collection is a list of documents in insertion order;
    - [Date.now()], the bcrypt salt and the fresh [ObjectId] are inputs of
      the handler that consumes them;
    - bcryptjs and the HMAC of jsonwebtoken are parameters; what is assumed
      of them is stated as a hypothesis of the section that uses it;
    - a handler returns the response it sends together with the collection
      it leaves behind. *)

From Stdlib Require Import ZArith Lia Bool Ascii String List.
From stdpp Require Import base option gmap strings.
Import ListNotations.

Local Open Scope string_scope.
Local Open Scope Z_scope.
Local Open Scope list_scope.

(** ** JavaScript values *)

(** The JSON values a request body or a token payload can hold. Numbers are
    integers here: no claim depends on a fractional number. *)
Inductive jsval : Type :=
  | JUndefined
  | JNull
  | JBool (b : bool)
  | JNum (n : Z)
  | JStr (s : string).

(** [if (v)] in JavaScript. *)
Definition truthy (v : jsval) : bool :=
  match v with
  | JUndefined | JNull => false
  | JBool b => b
  | JNum n => negb (n =? 0)
  | JStr s => negb (String.eqb s "")
  end.

(** A string field destructured from [req.body]: [None] when the key is
    absent ([undefined]). The client (src/pages/Login.jsx) posts strings. *)
Definition field : Type := option string.

(** [!x] for a string field: absent or the empty string. *)
Definition missing (x : field) : bool :=
  match x with
  | None => true
  | Some s => String.eqb s ""
  end.

(** The string a present field holds. *)
Definition str (x : field) : string :=
  match x with
  | None => ""
  | Some s => s
  end.

(** ** models/userModel.js *)

Module userModel.

(** A document of [userSchema], with the [_id] MongoDB gives it (the
    hexadecimal form, which is what a token payload carries). *)
Record doc : Type := mk {
  _id : string;
  name : string;
  email : string;
  password : string;
  verifyOtp : string;
  verifyOtpExpireAt : Z;
  isAccountVerified : bool;
  resetOtp : string;
  resetOtpExpireAt : Z
}.

(** [new userModel({ name, email, password })]: the other paths take the
    defaults of the schema. *)
Definition new (oid name email password : string) : doc :=
  {| _id := oid;
     name := name;
     email := email;
     password := password;
     verifyOtp := "";
     verifyOtpExpireAt := 0;
     isAccountVerified := false;
     resetOtp := "";
     resetOtpExpireAt := 0 |}.

(** The collection. *)
Definition collection : Type := list doc.

(** The first document a predicate selects. *)
Fixpoint find_first (p : doc -> bool) (db : collection) : option doc :=
  match db with
  | [] => None
  | u :: rest => if p u then Some u else find_first p rest
  end.

(** [userModel.findOne({ email })]. *)
Definition findOne (db : collection) (e : string) : option doc :=
  find_first (fun u => String.eqb (email u) e) db.

(** [userModel.findById(id)]. *)
Definition findById (db : collection) (i : string) : option doc :=
  find_first (fun u => String.eqb (_id u) i) db.

(** What [save] can throw on a new document. *)
Inductive error : Type :=
  | ValidatorError (path : string)
  | DuplicateKey (path : string).

(** [error.message], as far as the model tells the errors apart. *)
Definition message (e : error) : string :=
  match e with
  | ValidatorError path => "user validation failed: " +:+ path
  | DuplicateKey path => "E11000 duplicate key error: " +:+ path
  end.

(** [user.save()] on a new document: the [required] validators of the
    schema reject an empty string, the unique index on [email] rejects a
    second document with the same email; otherwise the document is
    appended. *)
Definition save (db : collection) (u : doc) : error + collection :=
  if String.eqb (name u) "" then inl (ValidatorError "name")
  else if String.eqb (email u) "" then inl (ValidatorError "email")
  else if String.eqb (password u) "" then inl (ValidatorError "password")
  else if existsb (fun v => String.eqb (email v) (email u)) db
    then inl (DuplicateKey "email")
  else inr (db ++ [u]).

(** [user.save()] on a document that was read from the collection and
    modified: the stored document the predicate selected is replaced. *)
Fixpoint update_first (p : doc -> bool) (f : doc -> doc) (db : collection)
  : collection :=
  match db with
  | [] => []
  | u :: rest => if p u then f u :: rest else u :: update_first p f rest
  end.

End userModel.

Abbreviation doc := userModel.doc.
Abbreviation collection := userModel.collection.

(** ** The process environment, responses and cookies *)

(** [process.env]; a variable that is not set reads as the empty string
    here, both being falsy. *)
Record ProcessEnv : Type := {
  JWT_SECRET : string;
  NODE_ENV : string
}.

(** The JSON body every endpoint answers with. *)
Record Json : Type := {
  success : bool;
  message : option string
}.

(** ** jsonwebtoken *)

(** The claims of a token. [exp] is optional in a token, and checked by
    [jwt.verify] only when present. Times are in seconds. *)
Record Payload : Type := {
  id : jsval;
  iat : Z;
  exp : option Z
}.

(** A well-formed token: its claims and the signature over them. *)
Record Jwt : Type := {
  payload : Payload;
  signature : string
}.

(** The value of a [token] cookie: a string that is not a token, or a
    well-formed token. *)
Inductive CookieValue : Type :=
  | Raw (s : string)
  | Tok (t : Jwt).

(** [!token] on the cookie, [None] being [undefined]. *)
Definition no_token (c : option CookieValue) : bool :=
  match c with
  | None => true
  | Some (Raw s) => String.eqb s ""
  | Some (Tok _) => false
  end.

Inductive JwtError : Type :=
  | JwtMalformed
  | InvalidSignature
  | TokenExpired
  | SecretOrPrivateKeyMissing
  | SecretOrPublicKeyMissing.

(** [error.message] of what jsonwebtoken throws. *)
Definition jwt_message (e : JwtError) : string :=
  match e with
  | JwtMalformed => "jwt malformed"
  | InvalidSignature => "invalid signature"
  | TokenExpired => "jwt expired"
  | SecretOrPrivateKeyMissing => "secretOrPrivateKey must have a value"
  | SecretOrPublicKeyMissing => "secret or public key must be provided"
  end.

(** A cookie set by [res.cookie("token", token, options)]. *)
Record Cookie : Type := {
  cookie_name : string;
  cookie_value : Jwt;
  httpOnly : bool;
  secure : bool;
  sameSite : string;
  maxAge : Z
}.

Record Response : Type := {
  json : Json;
  cookies_set : list Cookie
}.

(** [res.json(body)] with no cookie set. *)
Definition res_json (ok : bool) (msg : option string) : Response :=
  {| json := {| success := ok; message := msg |}; cookies_set := [] |}.

(** ["7d"] as [expiresIn], in seconds. *)
Definition expiresIn_7d : Z := 7 * 24 * 60 * 60.

(** [maxAge: 7 * 24 * 60 * 60 * 1000], in milliseconds. *)
Definition maxAge_7d : Z := 7 * 24 * 60 * 60 * 1000.

(** The error taxonomy of the specification (section 7), and the failure
    of [sendVerificationCode] on a verified account, to which the
    specification gives no name. *)
Inductive ErrorKind : Type :=
  | ValidationError
  | ConflictError
  | AuthError
  | NotFoundError
  | InvalidCodeError
  | ExpiredCodeError
  | DeliveryError
  | AlreadyVerifiedError.

(** How the specification names the failure messages of authController.js
    (section 4.1: missing fields, duplicate email, bad credentials). *)
Definition error_kind (msg : string) : option ErrorKind :=
  if String.eqb msg "Missing Details" then Some ValidationError
  else if String.eqb msg "Email and password are required" then Some ValidationError
  else if String.eqb msg "User already exists" then Some ConflictError
  else if String.eqb msg "Invalid email" then Some AuthError
  else if String.eqb msg "Invalid password" then Some AuthError
  else None.

(** A response is a failure of kind [k]. *)
Definition fails_with (r : Response) (k : ErrorKind) : Prop :=
  success (json r) = false /\
  exists msg, message (json r) = Some msg /\ error_kind msg = Some k.

(** What the middleware and the handler see of a request: the [token]
    cookie ([req.cookies.token], [None] when there is none) and the body
    object [express.json()] provides. *)
Record Request : Type := {
  cookie_token : option CookieValue;
  body : gmap string jsval
}.

(** How a middleware ends: it answers itself, or it calls [next()] with
    the request as it has left it. *)
Inductive Middleware : Type :=
  | Reply (r : Response)
  | Next (req : Request).

(** What serving a request comes to: the response sent and the requests
    the handler was invoked with, in order. *)
Record Served : Type := {
  sent : Response;
  handler_calls : list Request
}.

(** How an operation of the verification service ends. *)
Inductive Result : Type :=
  | Done
  | Failed (e : ErrorKind).

Definition hours_24 : Z := 24 * 60 * 60 * 1000.
Definition minutes_15 : Z := 15 * 60 * 1000.

Definition by_id (i : string) (u : doc) : bool := String.eqb (userModel._id u) i.
Definition by_email (e : string) (u : doc) : bool := String.eqb (userModel.email u) e.

Definition set_verifyOtp (otp : string) (expireAt : Z) (u : doc) : doc :=
  {| userModel._id := userModel._id u;
     userModel.name := userModel.name u;
     userModel.email := userModel.email u;
     userModel.password := userModel.password u;
     userModel.verifyOtp := otp;
     userModel.verifyOtpExpireAt := expireAt;
     userModel.isAccountVerified := userModel.isAccountVerified u;
     userModel.resetOtp := userModel.resetOtp u;
     userModel.resetOtpExpireAt := userModel.resetOtpExpireAt u |}.

Definition set_resetOtp (otp : string) (expireAt : Z) (u : doc) : doc :=
  {| userModel._id := userModel._id u;
     userModel.name := userModel.name u;
     userModel.email := userModel.email u;
     userModel.password := userModel.password u;
     userModel.verifyOtp := userModel.verifyOtp u;
     userModel.verifyOtpExpireAt := userModel.verifyOtpExpireAt u;
     userModel.isAccountVerified := userModel.isAccountVerified u;
     userModel.resetOtp := otp;
     userModel.resetOtpExpireAt := expireAt |}.

Definition set_isAccountVerified (b : bool) (u : doc) : doc :=
  {| userModel._id := userModel._id u;
     userModel.name := userModel.name u;
     userModel.email := userModel.email u;
     userModel.password := userModel.password u;
     userModel.verifyOtp := userModel.verifyOtp u;
     userModel.verifyOtpExpireAt := userModel.verifyOtpExpireAt u;
     userModel.isAccountVerified := b;
     userModel.resetOtp := userModel.resetOtp u;
     userModel.resetOtpExpireAt := userModel.resetOtpExpireAt u |}.

Definition set_password (h : string) (u : doc) : doc :=
  {| userModel._id := userModel._id u;
     userModel.name := userModel.name u;
     userModel.email := userModel.email u;
     userModel.password := h;
     userModel.verifyOtp := userModel.verifyOtp u;
     userModel.verifyOtpExpireAt := userModel.verifyOtpExpireAt u;
     userModel.isAccountVerified := userModel.isAccountVerified u;
     userModel.resetOtp := userModel.resetOtp u;
     userModel.resetOtpExpireAt := userModel.resetOtpExpireAt u |}.

(** ** One-time codes *)

(** Modelled from the spec: the one-time code of section 4.2, "a 6-digit
    numeric code (uniformly random, zero-padded)". The generator of the
    repository is not among the sources. The random draw is the input
    [seed]; the code is its decimal expansion on six positions, least
    significant digit first in [otp_digits]. *)
Fixpoint otp_digits (width : nat) (seed : N) : list N :=
  match width with
  | O => []
  | S w => (seed mod 10)%N :: otp_digits w (seed / 10)%N
  end.

(** The character of a decimal digit. *)
Definition digit_char (d : N) : ascii := ascii_of_N (48 + d).

(** Modelled from the spec: the generator of the one-time code, which is
    not among the sources: the six digits of the draw, most significant
    first, zeros included. *)
Definition generateOtp (seed : N) : string :=
  string_of_list_ascii (rev (map digit_char (otp_digits 6 seed))).

(** The number of codes, and the range the draw is uniform on. *)
Definition otp_space : N := 1000000.

(** [[0-9]] on a character. *)
Definition is_digit (c : ascii) : bool :=
  ((48 <=? N_of_ascii c) && (N_of_ascii c <=? 57))%N.

(** The regular expression [^[0-9]{6}$] on a string. *)
Definition matches_otp_regex (s : string) : bool :=
  Nat.eqb (String.length s) 6 && forallb is_digit (list_ascii_of_string s).

(** The value a string of digits denotes, used to invert the generator. *)
Fixpoint digits_value (ds : list N) : N :=
  match ds with
  | [] => 0
  | d :: rest => d + 10 * digits_value rest
  end%N.

Definition otp_value (s : string) : N :=
  digits_value (rev (map (fun c => N_of_ascii c - 48)%N (list_ascii_of_string s))).

(** ** routes/authRoutes.js and the collection over a run of requests *)

(** A request to one of the two routes of [authRouter], with the inputs its
    handler draws from the environment: [authRouter.post('/register',
    register)] and [authRouter.post('/login', login)]. *)
Inductive AuthCall : Type :=
  | PostRegister (now : Z) (salt oid : string) (name email password : field)
  | PostLogin (now : Z) (email password : field).

(** No two documents of the collection have the same email. *)
Fixpoint emails_unique (db : collection) : bool :=
  match db with
  | [] => true
  | u :: rest =>
      negb (existsb (by_email (userModel.email u)) rest) && emails_unique rest
  end.

(** The paths the schema marks [required] are non-empty. *)
Definition required_present (u : doc) : bool :=
  negb (String.eqb (userModel.name u) "")
  && negb (String.eqb (userModel.email u) "")
  && negb (String.eqb (userModel.password u) "").

(** ** src/pages/Login.jsx *)

(** How [axios.post] ends: it resolves with the body of the response, or it
    rejects, [error.response?.data?.message] being [None] when any link of
    the chain is [undefined]. *)
Inductive AxiosResult : Type :=
  | Resolved (data : Json)
  | Rejected (response_message : field).

(** What the submit handler does to the page: [toast.success(text)],
    [toast.error(text)] ([None] for [undefined]) and [navigate(to)]. *)
Inductive Effect : Type :=
  | ToastSuccess (text : string)
  | ToastError (text : option string)
  | Navigate (to : string).

Definition is_toast (e : Effect) : bool :=
  match e with
  | ToastSuccess _ | ToastError _ => true
  | Navigate _ => false
  end.

(** The link under the form:
    [setState(state === "Sign Up" ? "Login" : "Sign Up")]. *)
Definition toggle (state : string) : string :=
  if String.eqb state "Sign Up" then "Login" else "Sign Up".

(** The state of the form after a number of clicks on the link, from the
    initial [useState("Sign Up")]. *)
Fixpoint state_after (clicks : nat) : string :=
  match clicks with
  | O => "Sign Up"
  | S n => toggle (state_after n)
  end.

Definition register_url : string := "http://localhost:4000/api/auth/register".
Definition login_url : string := "http://localhost:4000/api/auth/login".

(** A stand-in for bcryptjs used to run the handlers on concrete inputs: the
    hash is the password behind a fixed prefix. *)
Definition demo_hash (pw salt : string) : string := "$2a$10$" +:+ pw.
Definition demo_compare (pw h : string) : bool := String.eqb h ("$2a$10$" +:+ pw).

(** A stand-in for the HMAC of jsonwebtoken, for the same purpose. *)
Definition demo_hmac (secret : string) (p : Payload) : string :=
  match id p with
  | JStr s => secret +:+ "." +:+ s
  | _ => secret
  end.

(** The inputs the handlers are run on below. *)
Definition demo_env : ProcessEnv :=
  {| JWT_SECRET := "s3cr3t"; NODE_ENV := "development" |}.

(** The same environment with [JWT_SECRET] not set. *)
Definition demo_env_without_secret : ProcessEnv :=
  {| JWT_SECRET := ""; NODE_ENV := "development" |}.

Definition demo_now : Z := 1700000000123.

(** An account as registration leaves it. *)
Definition demo_user : doc :=
  userModel.new "65a1" "A" "a@x.com" "$2a$10$p1".

Definition demo_db : collection := [demo_user].

(** The same account with a verification code and a reset code pending. *)
Definition demo_user_pending : doc :=
  set_resetOtp "000042" (demo_now + minutes_15)
    (set_verifyOtp "004711" (demo_now + hours_24) demo_user).

Definition demo_db_pending : collection := [demo_user_pending].

(** A token signed with the secret of [demo_env] for the account, and one
    signed with it whose payload has no id. *)
Definition demo_token : Jwt :=
  {| payload := {| id := JStr "65a1"; iat := 1700000000; exp := Some 1700604800 |};
     signature := "s3cr3t.65a1" |}.

Definition demo_token_without_id : Jwt :=
  {| payload := {| id := JUndefined; iat := 1700000000; exp := Some 1700604800 |};
     signature := "s3cr3t" |}.

Definition demo_getUserData (req : Request) : Response := res_json true None.

Definition demo_sendMail (to code : string) : bool := true.

(** ** controller/authController.js and middleware/userAuth.js *)

Section Server.

(** [bcrypt.hash(password, 10)], with the salt it draws made explicit,
    and [bcrypt.compare(password, hash)]. *)
Variable bcrypt_hash : string -> string -> string.
Variable bcrypt_compare : string -> string -> bool.

(** The HS256 signature of the claims under a secret. *)
Variable hmac : string -> Payload -> string.

Variable env : ProcessEnv.

(** The token [jwt.sign] makes at time [now] (ms): the claims, with [iat]
    and [exp] in seconds, and their signature. *)
Definition signed_token (i : jsval) (secret : string) (expiresIn : Z) (now : Z)
  : Jwt :=
  let p := {| id := i; iat := now / 1000; exp := Some (now / 1000 + expiresIn) |} in
  {| payload := p; signature := hmac secret p |}.

(** [jwt.sign({ id }, secret, { expiresIn })] at time [now] (ms): the
    token, or the error it throws when the secret is falsy. *)
Definition jwt_sign (i : jsval) (secret : string) (expiresIn : Z) (now : Z)
  : JwtError + Jwt :=
  if String.eqb secret "" then inl SecretOrPrivateKeyMissing
  else inr (signed_token i secret expiresIn now).

(** [jwt.verify(token, secret)] at time [now] (ms): the decoded claims, or
    the error it throws. A falsy secret is refused once the token has been
    parsed; the signature is checked before the expiry. *)
Definition jwt_verify (c : CookieValue) (secret : string) (now : Z)
  : JwtError + Payload :=
  match c with
  | Raw _ => inl JwtMalformed
  | Tok t =>
      if String.eqb secret "" then inl SecretOrPublicKeyMissing
      else if negb (String.eqb (signature t) (hmac secret (payload t)))
      then inl InvalidSignature
      else match exp (payload t) with
           | Some e => if e <=? now / 1000 then inl TokenExpired
                       else inr (payload t)
           | None => inr (payload t)
           end
  end.

(** The cookie both [register] and [login] set. *)
Definition token_cookie (token : Jwt) : Cookie :=
  {| cookie_name := "token";
     cookie_value := token;
     httpOnly := true;
     secure := String.eqb (NODE_ENV env) "production";
     sameSite := if String.eqb (NODE_ENV env) "production" then "none" else "strict";
     maxAge := maxAge_7d |}.

(** The response of a successful [register] or [login] issued at [now]
    for the account [oid]. *)
Definition session_response (oid : string) (now : Z) : Response :=
  {| json := {| success := true; message := None |};
     cookies_set :=
       [token_cookie (signed_token (JStr oid) (JWT_SECRET env) expiresIn_7d now)] |}.

(** What a handler that has come as far as [jwt.sign] answers. *)
Definition answer_after_sign (oid : string) (now : Z) : Response :=
  if String.eqb (JWT_SECRET env) ""
  then res_json false (Some "secretOrPrivateKey must have a value")
  else session_response oid now.

(** [register]. The account is saved before the token is signed, inside
    the same [try]: when [jwt.sign] throws, the [catch] answers with its
    message and the account stays stored. *)
Definition register (db : collection) (now : Z) (salt oid : string)
    (name email password : field) : Response * collection :=
  if missing name || missing email || missing password then
    (res_json false (Some "Missing Details"), db)
  else
    match userModel.findOne db (str email) with
    | Some existingUser => (res_json false (Some "User already exists"), db)
    | None =>
        let hashedPassword := bcrypt_hash (str password) salt in
        let user := userModel.new oid (str name) (str email) hashedPassword in
        match userModel.save db user with
        | inl error => (res_json false (Some (userModel.message error)), db)
        | inr db' =>
            match jwt_sign (JStr (userModel._id user)) (JWT_SECRET env)
                    expiresIn_7d now with
            | inl error => (res_json false (Some (jwt_message error)), db')
            | inr token =>
                ({| json := {| success := true; message := None |};
                    cookies_set := [token_cookie token] |}, db')
            end
        end
    end.

(** [login]. When [jwt.sign] throws, the [catch] answers with its
    message. *)
Definition login (db : collection) (now : Z) (email password : field)
  : Response * collection :=
  if missing email || missing password then
    (res_json false (Some "Email and password are required"), db)
  else
    match userModel.findOne db (str email) with
    | None => (res_json false (Some "Invalid email"), db)
    | Some user =>
        let isMatch := bcrypt_compare (str password) (userModel.password user) in
        if negb isMatch then
          (res_json false (Some "Invalid password"), db)
        else
          match jwt_sign (JStr (userModel._id user)) (JWT_SECRET env)
                  expiresIn_7d now with
          | inl error => (res_json false (Some (jwt_message error)), db)
          | inr token =>
              ({| json := {| success := true; message := None |};
                  cookies_set := [token_cookie token] |}, db)
          end
    end.

(** *** middleware/userAuth.js and routes/userRoutes.js *)

Definition not_authorized : Response :=
  res_json false (Some "Not Authorized, login again").

(** [userAuth]. An error thrown by [jwt.verify] is caught and answered
    like a missing token. *)
Definition userAuth (now : Z) (req : Request) : Middleware :=
  let token := cookie_token req in
  if no_token token then Reply not_authorized
  else
    match token with
    | None => Reply not_authorized
    | Some c =>
        match jwt_verify c (JWT_SECRET env) now with
        | inr tokenDecode =>
            if truthy (id tokenDecode) then
              Next {| cookie_token := cookie_token req;
                      body := <["userId" := id tokenDecode]> (body req) |}
            else Reply not_authorized
        | inl error => Reply not_authorized
        end
    end.

(** controller/userController.js is outside the embedded sources: the
    handler of the route is a parameter. *)
Variable getUserData : Request -> Response.

(** [userRouter.get("/data", userAuth, getUserData)]. *)
Definition userRouter_get_data (now : Z) (req : Request) : Served :=
  match userAuth now req with
  | Reply r => {| sent := r; handler_calls := [] |}
  | Next req' => {| sent := getUserData req'; handler_calls := [req'] |}
  end.

(** *** The verification service *)

(** The Notification Sender (config/nodemailer.js [transporter.sendMail]):
    recipient and code in, whether the mail went out. *)
Variable sendMail : string -> string -> bool.

(** Modelled from the spec: [sendVerificationCode(accountId)] of section
    4.2; the controller is not among the sources. It fails if the account
    is already verified; otherwise it stores a fresh code with a 24-hour
    expiry and hands it to the sender, and a failed delivery leaves the
    code stored. An unknown account is answered NotFoundError, as in the
    other operations. *)
Definition sendVerificationCode (db : collection) (now : Z) (seed : N)
    (accountId : string) : Result * collection :=
  match userModel.findById db accountId with
  | None => (Failed NotFoundError, db)
  | Some user =>
      if userModel.isAccountVerified user then (Failed AlreadyVerifiedError, db)
      else
        let otp := generateOtp seed in
        let db' :=
          userModel.update_first (by_id accountId)
            (set_verifyOtp otp (now + hours_24)) db in
        if sendMail (userModel.email user) otp then (Done, db')
        else (Failed DeliveryError, db')
  end.

(** Modelled from the spec: [verifyAccount(accountId, code)] of section
    4.2; the controller is not among the sources. The checks come in the
    order the spec lists them. A code whose expiry the current time
    exceeds is cleared when that is detected (the lazy expiry of the state
    machine of section 4.2), and a successful verification marks the
    account verified and clears the code. *)
Definition verifyAccount (db : collection) (now : Z) (accountId : string)
    (code : field) : Result * collection :=
  if missing code then (Failed ValidationError, db)
  else
    match userModel.findById db accountId with
    | None => (Failed NotFoundError, db)
    | Some user =>
        if String.eqb (userModel.verifyOtp user) ""
           || negb (String.eqb (userModel.verifyOtp user) (str code))
        then (Failed InvalidCodeError, db)
        else if userModel.verifyOtpExpireAt user <? now then
          (Failed ExpiredCodeError,
           userModel.update_first (by_id accountId) (set_verifyOtp "" 0) db)
        else
          (Done,
           userModel.update_first (by_id accountId)
             (fun u => set_verifyOtp "" 0 (set_isAccountVerified true u)) db)
    end.

(** Modelled from the spec: [requestPasswordReset(email)] of section 4.2;
    the controller is not among the sources. It fails with NotFoundError
    if no account matches; otherwise it stores a fresh code with a
    15-minute expiry and hands it to the sender. *)
Definition requestPasswordReset (db : collection) (now : Z) (seed : N)
    (email : string) : Result * collection :=
  match userModel.findOne db email with
  | None => (Failed NotFoundError, db)
  | Some user =>
      let otp := generateOtp seed in
      let db' :=
        userModel.update_first (by_email email)
          (set_resetOtp otp (now + minutes_15)) db in
      if sendMail (userModel.email user) otp then (Done, db')
      else (Failed DeliveryError, db')
  end.

(** Modelled from the spec: [resetPassword(email, code, newPassword)] of
    section 4.2; the controller is not among the sources. The code is
    checked by the rules of [verifyAccount]; on success the stored hash
    becomes the hash of the new password and the reset code is cleared. *)
Definition resetPassword (db : collection) (now : Z) (salt : string)
    (email code newPassword : field) : Result * collection :=
  if missing email || missing code || missing newPassword then
    (Failed ValidationError, db)
  else
    match userModel.findOne db (str email) with
    | None => (Failed NotFoundError, db)
    | Some user =>
        if String.eqb (userModel.resetOtp user) ""
           || negb (String.eqb (userModel.resetOtp user) (str code))
        then (Failed InvalidCodeError, db)
        else if userModel.resetOtpExpireAt user <? now then
          (Failed ExpiredCodeError,
           userModel.update_first (by_email (str email)) (set_resetOtp "" 0) db)
        else
          (Done,
           userModel.update_first (by_email (str email))
             (fun u => set_resetOtp "" 0
                         (set_password (bcrypt_hash (str newPassword) salt) u)) db)
    end.

(** *** routes/authRoutes.js *)

(** [authRouter]: the request goes to the handler of its route. *)
Definition authRouter (db : collection) (call : AuthCall) : Response * collection :=
  match call with
  | PostRegister now salt oid name email password =>
      register db now salt oid name email password
  | PostLogin now email password => login db now email password
  end.

(** The collection after a sequence of requests to [authRouter], served
    one after the other. *)
Fixpoint serve (db : collection) (calls : list AuthCall) : collection :=
  match calls with
  | [] => db
  | call :: rest => serve (snd (authRouter db call)) rest
  end.

(** *** src/pages/Login.jsx *)

(** [axios.post(url, body)], the body given by its fields ([name] is absent
    from the body of a login). *)
Variable axios_post : string -> field -> field -> field -> AxiosResult.

(** The [catch] of the handler:
    [toast.error(error.response?.data?.message || "Something went wrong")]. *)
Definition on_error (response_message : field) : list Effect :=
  [ToastError (Some (if missing response_message then "Something went wrong"
                     else str response_message))].

(** [onSubmitHandler], on the state of the form. *)
Definition onSubmitHandler (state name email password : string) : list Effect :=
  if String.eqb state "Sign Up" then
    match axios_post register_url (Some name) (Some email) (Some password) with
    | Resolved data =>
        if success data then
          [ToastSuccess "Account created successfully!"; Navigate "/"]
        else [ToastError (message data)]
    | Rejected response_message => on_error response_message
    end
  else
    match axios_post login_url None (Some email) (Some password) with
    | Resolved data =>
        if success data then [ToastSuccess "Login successful!"; Navigate "/"]
        else [ToastError (message data)]
    | Rejected response_message => on_error response_message
    end.

(** ** Properties *)

(** *** The one-time code *)

Lemma otp_digits_length (w : nat) (n : N) : length (otp_digits w n) = w.
Proof.
  revert n; induction w as [|w IH]; intros n; simpl; [reflexivity|].
  now rewrite IH.
Qed.

Lemma otp_digits_lt (w : nat) (n : N) :
  Forall (fun d => (d < 10)%N) (otp_digits w n).
Proof.
  revert n; induction w as [|w IH]; intros n; simpl; constructor.
  - apply N.mod_lt. discriminate.
  - apply IH.
Qed.

Lemma digits_value_otp_digits (w : nat) (n : N) :
  digits_value (otp_digits w n) = (n mod 10 ^ N.of_nat w)%N.
Proof.
  revert n; induction w as [|w IH]; intros n.
  - simpl. now rewrite N.mod_1_r.
  - cbn [otp_digits digits_value]. rewrite IH.
    rewrite Nat2N.inj_succ, N.pow_succ_r'.
    rewrite N.Div0.mod_mul_r. reflexivity.
Qed.

Lemma digits_value_lt (ds : list N) :
  Forall (fun d => (d < 10)%N) ds ->
  (digits_value ds < 10 ^ N.of_nat (length ds))%N.
Proof.
  induction 1 as [|d ds Hd _ IH].
  - simpl. lia.
  - cbn [digits_value length]. rewrite Nat2N.inj_succ, N.pow_succ_r'. lia.
Qed.

Lemma otp_digits_value (ds : list N) :
  Forall (fun d => (d < 10)%N) ds ->
  otp_digits (length ds) (digits_value ds) = ds.
Proof.
  induction 1 as [|d ds Hd _ IH]; [reflexivity|].
  cbn [digits_value length otp_digits].
  assert (Hm : ((d + 10 * digits_value ds) mod 10 = d)%N).
  { replace (d + 10 * digits_value ds)%N with (d + digits_value ds * 10)%N by lia.
    rewrite N.Div0.mod_add. now apply N.mod_small. }
  assert (Hq : ((d + 10 * digits_value ds) / 10 = digits_value ds)%N).
  { replace (d + 10 * digits_value ds)%N with (d + digits_value ds * 10)%N by lia.
    rewrite N.div_add by discriminate.
    now rewrite (N.div_small d) by assumption. }
  now rewrite Hm, Hq, IH.
Qed.

Lemma N_of_digit_char (d : N) : (d < 10)%N -> N_of_ascii (digit_char d) = (48 + d)%N.
Proof.
  intros Hd. unfold digit_char. apply N_ascii_embedding. lia.
Qed.

Lemma is_digit_digit_char (d : N) : (d < 10)%N -> is_digit (digit_char d) = true.
Proof.
  intros Hd. unfold is_digit. rewrite N_of_digit_char by assumption.
  apply andb_true_intro; split; apply N.leb_le; lia.
Qed.

Lemma digit_char_of_digit (c : ascii) :
  is_digit c = true -> digit_char (N_of_ascii c - 48)%N = c /\ (N_of_ascii c - 48 < 10)%N.
Proof.
  unfold is_digit. intros [Hlo Hhi]%andb_prop.
  apply N.leb_le in Hlo, Hhi. split; [|lia].
  unfold digit_char. replace (48 + (N_of_ascii c - 48))%N with (N_of_ascii c) by lia.
  apply ascii_N_embedding.
Qed.

Lemma length_string_of_list_ascii (l : list ascii) :
  String.length (string_of_list_ascii l) = length l.
Proof. induction l as [|c l IH]; simpl; congruence. Qed.

Lemma forallb_map_digit_char (ds : list N) :
  Forall (fun d => (d < 10)%N) ds -> forallb is_digit (map digit_char ds) = true.
Proof.
  induction 1 as [|d ds Hd _ IH]; simpl; [reflexivity|].
  now rewrite is_digit_digit_char, IH.
Qed.

Lemma forallb_rev {A : Type} (p : A -> bool) (l : list A) :
  forallb p (rev l) = forallb p l.
Proof.
  induction l as [|x l IH]; simpl; [reflexivity|].
  rewrite forallb_app, IH. simpl. rewrite andb_true_r. apply andb_comm.
Qed.

Lemma map_digit_char_inj (xs ys : list N) :
  Forall (fun d => (d < 10)%N) xs -> Forall (fun d => (d < 10)%N) ys ->
  map digit_char xs = map digit_char ys -> xs = ys.
Proof.
  intros Hx; revert ys; induction Hx as [|x xs Hx _ IH]; intros ys Hy Heq.
  - destruct ys; [reflexivity|discriminate].
  - destruct Hy as [|y ys Hy Hys]; [discriminate|].
    simpl in Heq. injection Heq as Hc Hrest.
    apply (f_equal N_of_ascii) in Hc.
    rewrite !N_of_digit_char in Hc by assumption.
    f_equal; [lia|]. now apply IH.
Qed.

(** Every generated code matches [^[0-9]{6}$]. *)
Lemma generateOtp_format (seed : N) : matches_otp_regex (generateOtp seed) = true.
Proof.
  unfold matches_otp_regex, generateOtp.
  rewrite length_string_of_list_ascii, list_ascii_of_string_of_list_ascii.
  rewrite length_rev, length_map, otp_digits_length, forallb_rev.
  apply forallb_map_digit_char, otp_digits_lt.
Qed.

(** Two draws of the range with the same code are the same draw. *)
Lemma generateOtp_inj (a b : N) :
  (a < otp_space)%N -> (b < otp_space)%N -> generateOtp a = generateOtp b -> a = b.
Proof.
  unfold generateOtp, otp_space. intros Ha Hb Heq.
  apply (f_equal list_ascii_of_string) in Heq.
  rewrite !list_ascii_of_string_of_list_ascii in Heq.
  apply (f_equal (@rev ascii)) in Heq. rewrite !rev_involutive in Heq.
  apply map_digit_char_inj in Heq; try apply otp_digits_lt.
  apply (f_equal digits_value) in Heq.
  rewrite !digits_value_otp_digits in Heq.
  change (10 ^ N.of_nat 6)%N with 1000000%N in Heq.
  now rewrite !N.mod_small in Heq by assumption.
Qed.

(** Every string of six digits is the code of a draw of the range. *)
Lemma generateOtp_surj (s : string) :
  matches_otp_regex s = true ->
  (otp_value s < otp_space)%N /\ generateOtp (otp_value s) = s.
Proof.
  unfold matches_otp_regex. intros [Hlen Hdig]%andb_prop.
  apply Nat.eqb_eq in Hlen.
  assert (Hs : s = string_of_list_ascii (list_ascii_of_string s))
    by (symmetry; apply string_of_list_ascii_of_string).
  remember (list_ascii_of_string s) as cs eqn:Hcs. clear Hcs. subst s.
  rewrite length_string_of_list_ascii in Hlen.
  unfold otp_value, generateOtp. rewrite list_ascii_of_string_of_list_ascii.
  set (ds := rev (map (fun c => (N_of_ascii c - 48)%N) cs)).
  assert (Hds : Forall (fun d => (d < 10)%N) ds).
  { subst ds. apply Forall_rev, Forall_map.
    rewrite forallb_forall in Hdig. apply List.Forall_forall.
    intros c Hc. now apply digit_char_of_digit, Hdig. }
  assert (Hl : length ds = 6%nat).
  { subst ds. now rewrite length_rev, length_map. }
  split.
  - pose proof (digits_value_lt ds Hds) as Hlt. rewrite Hl in Hlt. exact Hlt.
  - rewrite <- Hl, otp_digits_value by assumption.
    subst ds. rewrite map_rev, rev_involutive, map_map.
    f_equal. rewrite <- (map_id cs) at 2. apply map_ext_in.
    intros c Hc. rewrite forallb_forall in Hdig.
    now apply digit_char_of_digit, Hdig.
Qed.

(** *** The collection *)

Lemma missing_false (x : field) :
  missing x = false -> str x <> "" /\ x = Some (str x).
Proof.
  destruct x as [s|]; simpl; [|discriminate].
  intros H. split; [now apply String.eqb_neq|reflexivity].
Qed.

Lemma find_first_update_first (p : doc -> bool) (f : doc -> doc) (db : collection) :
  (forall u, p u = true -> p (f u) = true) ->
  userModel.find_first p (userModel.update_first p f db)
  = option_map f (userModel.find_first p db).
Proof.
  intros Hp. induction db as [|u db IH]; simpl; [reflexivity|].
  destruct (p u) eqn:Hu; simpl.
  - now rewrite (Hp u Hu).
  - now rewrite Hu.
Qed.

Lemma length_update_first (p : doc -> bool) (f : doc -> doc) (db : collection) :
  length (userModel.update_first p f db) = length db.
Proof.
  induction db as [|u db IH]; simpl; [reflexivity|].
  destruct (p u); simpl; congruence.
Qed.

Lemma find_first_None_existsb (p : doc -> bool) (db : collection) :
  userModel.find_first p db = None -> existsb p db = false.
Proof.
  induction db as [|u db IH]; simpl; [reflexivity|].
  destruct (p u); [discriminate|]. exact IH.
Qed.

Lemma find_first_app (p : doc -> bool) (db : collection) (u : doc) :
  userModel.find_first p db = None ->
  userModel.find_first p (db ++ [u]) = if p u then Some u else None.
Proof.
  induction db as [|v db IH]; simpl; [reflexivity|].
  destruct (p v); [discriminate|]. exact IH.
Qed.

(** A valid document with a fresh email is appended by [save]. *)
Lemma save_fresh (db : collection) (u : doc) :
  userModel.name u <> "" -> userModel.email u <> "" -> userModel.password u <> "" ->
  userModel.findOne db (userModel.email u) = None ->
  userModel.save db u = inr (db ++ [u]).
Proof.
  intros Hn He Hp Hfresh. unfold userModel.save.
  apply String.eqb_neq in Hn, He, Hp. rewrite Hn, He, Hp.
  apply find_first_None_existsb in Hfresh. now rewrite Hfresh.
Qed.

(** *** What is assumed of bcryptjs *)

(** A password matches the hash made of it, whatever the salt. *)
Hypothesis bcrypt_compare_hash :
  forall pw salt, bcrypt_compare pw (bcrypt_hash pw salt) = true.

(** A hash is never the empty string (bcrypt hashes have 60 characters). *)
Hypothesis bcrypt_hash_nonempty :
  forall pw salt, bcrypt_hash pw salt <> "".

(** *** Registration and login *)

(** A registration with all fields present under a fresh email: the
    account is stored, and the answer is the one [jwt.sign] allows. *)
Lemma register_fresh_any (db : collection) (now : Z) (salt oid : string)
    (name email password : field) :
  missing name = false -> missing email = false -> missing password = false ->
  userModel.findOne db (str email) = None ->
  register db now salt oid name email password
  = (if String.eqb (JWT_SECRET env) ""
     then res_json false (Some "secretOrPrivateKey must have a value")
     else session_response oid now,
     db ++ [userModel.new oid (str name) (str email) (bcrypt_hash (str password) salt)]).
Proof.
  intros Hn He Hp Hfresh. unfold register.
  rewrite Hn, He, Hp, Hfresh. cbn [orb].
  apply missing_false in Hn as [Hn _], He as [He _].
  rewrite save_fresh; [|simpl; auto ..].
  unfold jwt_sign. now destruct (String.eqb (JWT_SECRET env) "").
Qed.

Lemma register_fresh (db : collection) (now : Z) (salt oid : string)
    (name email password : field) :
  JWT_SECRET env <> "" ->
  missing name = false -> missing email = false -> missing password = false ->
  userModel.findOne db (str email) = None ->
  register db now salt oid name email password
  = (session_response oid now,
     db ++ [userModel.new oid (str name) (str email) (bcrypt_hash (str password) salt)]).
Proof.
  intros Hs Hn He Hp Hfresh. rewrite register_fresh_any by assumption.
  apply String.eqb_neq in Hs. now rewrite Hs.
Qed.

Lemma register_existing (db : collection) (now : Z) (salt oid : string)
    (name email password : field) (existing : doc) :
  missing name = false -> missing email = false -> missing password = false ->
  userModel.findOne db (str email) = Some existing ->
  register db now salt oid name email password
  = (res_json false (Some "User already exists"), db).
Proof.
  intros Hn He Hp Hex. unfold register. now rewrite Hn, He, Hp, Hex.
Qed.

(** A login with the password of the account: the answer is the one
    [jwt.sign] allows. *)
Lemma login_accepted_any (db : collection) (now : Z) (email password : field) (user : doc) :
  missing email = false -> missing password = false ->
  userModel.findOne db (str email) = Some user ->
  bcrypt_compare (str password) (userModel.password user) = true ->
  login db now email password
  = (if String.eqb (JWT_SECRET env) ""
     then res_json false (Some "secretOrPrivateKey must have a value")
     else session_response (userModel._id user) now, db).
Proof.
  intros He Hp Hu Hc. unfold login. rewrite He, Hp, Hu, Hc. cbn [orb negb].
  unfold jwt_sign. now destruct (String.eqb (JWT_SECRET env) "").
Qed.

Lemma login_accepted (db : collection) (now : Z) (email password : field) (user : doc) :
  JWT_SECRET env <> "" ->
  missing email = false -> missing password = false ->
  userModel.findOne db (str email) = Some user ->
  bcrypt_compare (str password) (userModel.password user) = true ->
  login db now email password = (session_response (userModel._id user) now, db).
Proof.
  intros Hs He Hp Hu Hc. rewrite (login_accepted_any _ _ _ _ user) by assumption.
  apply String.eqb_neq in Hs. now rewrite Hs.
Qed.

Lemma login_rejected (db : collection) (now : Z) (email password : field) (user : doc) :
  missing email = false -> missing password = false ->
  userModel.findOne db (str email) = Some user ->
  bcrypt_compare (str password) (userModel.password user) = false ->
  login db now email password = (res_json false (Some "Invalid password"), db).
Proof.
  intros He Hp Hu Hc. unfold login. now rewrite He, Hp, Hu, Hc.
Qed.

Lemma login_unknown (db : collection) (now : Z) (email password : field) :
  missing email = false -> missing password = false ->
  userModel.findOne db (str email) = None ->
  login db now email password = (res_json false (Some "Invalid email"), db).
Proof.
  intros He Hp Hu. unfold login. now rewrite He, Hp, Hu.
Qed.

(** A token signed here verifies, with the claims it was signed with, as
    long as its lifetime has not run out. *)
Lemma jwt_verify_sign (i : jsval) (secret : string) (expiresIn now check : Z) :
  secret <> "" ->
  check / 1000 < now / 1000 + expiresIn ->
  jwt_verify (Tok (signed_token i secret expiresIn now)) secret check
  = inr (payload (signed_token i secret expiresIn now)).
Proof.
  intros Hs Hlt. unfold jwt_verify, signed_token. cbn [signature payload exp].
  apply String.eqb_neq in Hs. rewrite Hs.
  rewrite String.eqb_refl. cbn [negb].
  destruct (Z.leb_spec (now / 1000 + expiresIn) (check / 1000)); [lia|reflexivity].
Qed.

(** C8, as the code has it. On a server whose [JWT_SECRET] is not empty,
    for every fresh email, [register] with all three fields present
    answers success, appends one account to the collection whose
    verification state is false, whose verification and reset codes are
    empty and whose expiry timestamps are zero, and sets one cookie
    [token], HTTP-only, with a maximal age of 7 days, holding a token for
    the id of the new account that expires 7 days after it was issued. *)
Theorem register_creates_unverified_account
    (db : collection) (now : Z) (salt oid : string) (name email password : field) :
  JWT_SECRET env <> "" ->
  missing name = false -> missing email = false -> missing password = false ->
  userModel.findOne db (str email) = None ->
  exists (user : doc) (cookie : Cookie),
    register db now salt oid name email password
    = ({| json := {| success := true; message := None |};
          cookies_set := [cookie] |}, db ++ [user])
    /\ userModel._id user = oid
    /\ userModel.name user = str name
    /\ userModel.email user = str email
    /\ userModel.password user = bcrypt_hash (str password) salt
    /\ userModel.isAccountVerified user = false
    /\ userModel.verifyOtp user = ""
    /\ userModel.resetOtp user = ""
    /\ userModel.verifyOtpExpireAt user = 0
    /\ userModel.resetOtpExpireAt user = 0
    /\ cookie_name cookie = "token"
    /\ httpOnly cookie = true
    /\ maxAge cookie = 7 * 24 * 60 * 60 * 1000
    /\ id (payload (cookie_value cookie)) = JStr oid
    /\ exp (payload (cookie_value cookie))
       = Some (iat (payload (cookie_value cookie)) + 7 * 24 * 60 * 60).
Proof.
  intros Hs Hn He Hp Hfresh.
  eexists _, _. split.
  - rewrite register_fresh by assumption. unfold session_response. reflexivity.
  - repeat split.
Qed.

(** C7. For the account a registration creates, every session token set by
    [register] and every session token set by a later [login] with the
    same credentials verify under the server secret during their
    lifetime, decode to the same id, the id of that account, and both
    expire 7 days after they were issued, in cookies of the same maximal
    age; and on a server whose [JWT_SECRET] is not empty both handlers do
    set such a token. *)
Theorem register_login_tokens_same_account
    (db : collection) (now1 now2 : Z) (salt oid : string)
    (name email password : field) :
  missing name = false -> missing email = false -> missing password = false ->
  userModel.findOne db (str email) = None ->
  let first := register db now1 salt oid name email password in
  let second := login (snd first) now2 email password in
  (forall c1 c2 : Cookie,
     In c1 (cookies_set (fst first)) ->
     In c2 (cookies_set (fst second)) ->
     let t1 := cookie_value c1 in
     let t2 := cookie_value c2 in
     (forall check, check / 1000 < now1 / 1000 + 7 * 24 * 60 * 60 ->
        jwt_verify (Tok t1) (JWT_SECRET env) check = inr (payload t1))
     /\ (forall check, check / 1000 < now2 / 1000 + 7 * 24 * 60 * 60 ->
           jwt_verify (Tok t2) (JWT_SECRET env) check = inr (payload t2))
     /\ id (payload t1) = JStr oid
     /\ id (payload t2) = id (payload t1)
     /\ exp (payload t1) = Some (iat (payload t1) + 7 * 24 * 60 * 60)
     /\ exp (payload t2) = Some (iat (payload t2) + 7 * 24 * 60 * 60)
     /\ maxAge c1 = 7 * 24 * 60 * 60 * 1000
     /\ maxAge c2 = maxAge c1)
  /\ (JWT_SECRET env <> "" ->
      exists c1 c2 : Cookie,
        cookies_set (fst first) = [c1] /\ cookies_set (fst second) = [c2]).
Proof.
  intros Hn He Hp Hfresh first second. subst first second.
  rewrite register_fresh_any by assumption. cbn [fst snd].
  set (user := userModel.new oid (str name) (str email) (bcrypt_hash (str password) salt)).
  assert (Hfind : userModel.findOne (db ++ [user]) (str email) = Some user).
  { unfold userModel.findOne. rewrite find_first_app by exact Hfresh.
    subst user. cbn [userModel.email userModel.new]. now rewrite String.eqb_refl. }
  rewrite (login_accepted_any _ _ _ _ user) by (auto; apply bcrypt_compare_hash).
  cbn [fst].
  destruct (String.eqb (JWT_SECRET env) "") eqn:Hs.
  - split; [intros c1 c2 []|]. apply String.eqb_eq in Hs. congruence.
  - apply String.eqb_neq in Hs. unfold session_response. cbn [cookies_set].
    split; [|eauto].
    intros c1 c2 [<-|[]] [<-|[]]. cbv zeta. cbn [cookie_value token_cookie].
    split; [|split].
    + intros check Hc. now apply jwt_verify_sign.
    + intros check Hc. now apply jwt_verify_sign.
    + repeat split.
Qed.

(** C2, as the code has it. If an account with that email already exists
    and the name, the email and the password are all present, [register]
    fails with ConflictError and leaves the collection as it was, so the
    number of accounts is unchanged; and when a registration with all
    fields present is followed by a second one with the same email, the
    second fails with ConflictError and changes nothing, whether or not
    the first succeeded. *)
Theorem register_existing_email_conflict
    (db : collection) (now1 now2 : Z) (salt1 salt2 oid1 oid2 : string)
    (name1 name2 email password1 password2 : field) :
  missing email = false ->
  missing name1 = false -> missing password1 = false ->
  missing name2 = false -> missing password2 = false ->
  let first := register db now1 salt1 oid1 name1 email password1 in
  let second := register (snd first) now2 salt2 oid2 name2 email password2 in
  (forall existing, userModel.findOne db (str email) = Some existing ->
     fails_with (fst first) ConflictError
     /\ snd first = db /\ length (snd first) = length db)
  /\ fails_with (fst second) ConflictError
  /\ snd second = snd first
  /\ length (snd second) = length (snd first).
Proof.
  intros He Hn1 Hp1 Hn2 Hp2 first second.
  assert (Hconflict : fails_with (res_json false (Some "User already exists")) ConflictError).
  { split; [reflexivity|]. now exists "User already exists". }
  split.
  - intros existing Hex. subst first.
    rewrite (register_existing _ _ _ _ _ _ _ existing) by assumption.
    cbn [fst snd]. auto.
  - assert (Hnow : exists u, userModel.findOne (snd first) (str email) = Some u).
    { subst first. destruct (userModel.findOne db (str email)) as [u|] eqn:Hfind.
      - rewrite (register_existing _ _ _ _ _ _ _ u) by assumption. now exists u.
      - rewrite register_fresh_any by assumption. cbn [snd].
        unfold userModel.findOne. rewrite find_first_app by exact Hfind.
        cbn [userModel.email userModel.new]. rewrite String.eqb_refl. eauto. }
    destruct Hnow as [u Hu]. subst second.
    rewrite (register_existing _ _ _ _ _ _ _ u) by assumption.
    cbn [fst snd]. auto.
Qed.

(** C3, as the code has it. For every stored account and every non-empty
    password that [bcrypt.compare] rejects for it, [login] fails with
    AuthError, with the message "Invalid password", sets no cookie and
    leaves the collection as it was; for an email no account has, [login]
    fails with AuthError too, but with the different message
    "Invalid email". *)
Theorem login_wrong_password_fails
    (db : collection) (now : Z) (email unknown password : field) (user : doc) :
  missing email = false -> missing password = false ->
  userModel.findOne db (str email) = Some user ->
  bcrypt_compare (str password) (userModel.password user) = false ->
  missing unknown = false ->
  userModel.findOne db (str unknown) = None ->
  login db now email password = (res_json false (Some "Invalid password"), db)
  /\ fails_with (fst (login db now email password)) AuthError
  /\ login db now unknown password = (res_json false (Some "Invalid email"), db)
  /\ fails_with (fst (login db now unknown password)) AuthError
  /\ message (json (fst (login db now email password)))
     <> message (json (fst (login db now unknown password))).
Proof.
  intros He Hp Hu Hc Hue Hun.
  rewrite (login_rejected _ _ _ _ user) by assumption.
  rewrite login_unknown by assumption. cbn [fst].
  repeat split; try discriminate.
  - now exists "Invalid password".
  - now exists "Invalid email".
Qed.

(** *** The session middleware *)

(** What [jwt.verify] throws on the tokens the middleware rejects. *)
Lemma jwt_verify_invalid (c : CookieValue) (now : Z) :
  (exists s, c = Raw s)
  \/ (exists t, c = Tok t /\ signature t <> hmac (JWT_SECRET env) (payload t))
  \/ (exists t e, c = Tok t /\ exp (payload t) = Some e /\ e <= now / 1000) ->
  exists error, jwt_verify c (JWT_SECRET env) now = inl error.
Proof.
  intros [[s ->]|[(t & -> & Hsig)|(t & e & -> & Hexp & Hle)]]; simpl.
  - now exists JwtMalformed.
  - destruct (String.eqb (JWT_SECRET env) ""); [now exists SecretOrPublicKeyMissing|].
    apply String.eqb_neq in Hsig. rewrite Hsig. now exists InvalidSignature.
  - destruct (String.eqb (JWT_SECRET env) ""); [now exists SecretOrPublicKeyMissing|].
    destruct (negb _); [now exists InvalidSignature|].
    rewrite Hexp. apply Z.leb_le in Hle. rewrite Hle. now exists TokenExpired.
Qed.

Lemma userAuth_rejects (now : Z) (req : Request) :
  cookie_token req = None
  \/ (exists c error, cookie_token req = Some c
                      /\ jwt_verify c (JWT_SECRET env) now = inl error) ->
  userAuth now req = Reply not_authorized.
Proof.
  unfold userAuth. intros [->|(c & error & -> & Hv)]; [reflexivity|].
  cbv zeta. rewrite Hv. now destruct (no_token _).
Qed.

Lemma userAuth_accepts (now : Z) (req : Request) (c : CookieValue) (p : Payload) :
  cookie_token req = Some c ->
  jwt_verify c (JWT_SECRET env) now = inr p ->
  userAuth now req
  = if truthy (id p)
    then Next {| cookie_token := cookie_token req;
                 body := <["userId" := id p]> (body req) |}
    else Reply not_authorized.
Proof.
  intros Hc Hv. unfold userAuth. rewrite Hc.
  destruct c as [s|t]; [discriminate|]. cbn [no_token]. now rewrite Hv.
Qed.

(** What [jwt.verify] does with a well-formed token whose signature is the
    one of its payload and which has not expired: the secret decides. *)
Lemma jwt_verify_signed (t : Jwt) (now : Z) :
  signature t = hmac (JWT_SECRET env) (payload t) ->
  (forall e, exp (payload t) = Some e -> now / 1000 < e) ->
  jwt_verify (Tok t) (JWT_SECRET env) now
  = if String.eqb (JWT_SECRET env) "" then inl SecretOrPublicKeyMissing
    else inr (payload t).
Proof.
  intros Hsig Hexp. unfold jwt_verify.
  destruct (String.eqb (JWT_SECRET env) ""); [reflexivity|].
  rewrite Hsig, String.eqb_refl. cbn [negb].
  destruct (exp (payload t)) as [e|] eqn:He; [|reflexivity].
  specialize (Hexp e eq_refl).
  destruct (Z.leb_spec e (now / 1000)); [lia|reflexivity].
Qed.

(** C4, as the code has it. If the token is absent, malformed, has an
    invalid signature or is expired, the middleware answers the rejection
    response (success false, "Not Authorized, login again") and the
    handler of the route is not invoked; if the token verifies and its
    payload carries a truthy id, the handler is invoked once, with a
    request whose body holds that id under [userId]. *)
Theorem userAuth_gate (now : Z) (req : Request) :
  (cookie_token req = None
   \/ (exists s, cookie_token req = Some (Raw s))
   \/ (exists t, cookie_token req = Some (Tok t)
                 /\ signature t <> hmac (JWT_SECRET env) (payload t))
   \/ (exists t e, cookie_token req = Some (Tok t)
                   /\ exp (payload t) = Some e /\ e <= now / 1000) ->
   userAuth now req = Reply not_authorized
   /\ userRouter_get_data now req = {| sent := not_authorized; handler_calls := [] |}
   /\ json not_authorized
      = {| success := false; message := Some "Not Authorized, login again" |})
  /\ (forall c p,
        cookie_token req = Some c ->
        jwt_verify c (JWT_SECRET env) now = inr p ->
        truthy (id p) = true ->
        exists req',
          userAuth now req = Next req'
          /\ body req' !! "userId" = Some (id p)
          /\ userRouter_get_data now req
             = {| sent := getUserData req'; handler_calls := [req'] |}).
Proof.
  split.
  - intros Hbad.
    assert (Hrej : userAuth now req = Reply not_authorized).
    { apply userAuth_rejects.
      destruct Hbad as [Hnone|Hbad]; [now left|right].
      assert (Hc : exists c, cookie_token req = Some c /\
                ((exists s, c = Raw s)
                 \/ (exists t, c = Tok t /\ signature t <> hmac (JWT_SECRET env) (payload t))
                 \/ (exists t e, c = Tok t /\ exp (payload t) = Some e /\ e <= now / 1000))).
      { destruct Hbad as [[s Hs]|[(t & Ht & Hsig)|(t & e & Ht & Hexp & Hle)]];
          eexists; (split; [eassumption|]); eauto 7. }
      destruct Hc as (c & Hc & Hinv).
      destruct (jwt_verify_invalid c now Hinv) as [error Herr]. eauto. }
    unfold userRouter_get_data. now rewrite Hrej.
  - intros c p Hc Hv Hid.
    pose proof (userAuth_accepts now req c p Hc Hv) as Hacc. rewrite Hid in Hacc.
    eexists. split; [exact Hacc|]. split.
    + cbn [body]. apply lookup_insert_eq.
    + unfold userRouter_get_data. now rewrite Hacc.
Qed.

(** C10. Whenever the middleware lets a request through, the handler is
    invoked with a request whose body holds under [userId] the id decoded
    from the verified token; a [userId] the client put in the body makes
    no difference to what the route does; and a validly signed, unexpired
    token whose payload has no truthy id is rejected, the handler not
    being invoked. *)
Theorem userAuth_userId_from_token (now : Z) (req : Request) :
  (forall req',
     userAuth now req = Next req' ->
     handler_calls (userRouter_get_data now req) = [req']
     /\ exists c p,
          cookie_token req = Some c
          /\ jwt_verify c (JWT_SECRET env) now = inr p
          /\ truthy (id p) = true
          /\ body req' !! "userId" = Some (id p))
  /\ (forall v : jsval,
        userRouter_get_data now
          {| cookie_token := cookie_token req;
             body := <["userId" := v]> (body req) |}
        = userRouter_get_data now req)
  /\ (forall t,
        cookie_token req = Some (Tok t) ->
        signature t = hmac (JWT_SECRET env) (payload t) ->
        (forall e, exp (payload t) = Some e -> now / 1000 < e) ->
        truthy (id (payload t)) = false ->
        userAuth now req = Reply not_authorized
        /\ handler_calls (userRouter_get_data now req) = []).
Proof.
  split; [|split].
  - intros req' Hnext. split.
    + unfold userRouter_get_data. now rewrite Hnext.
    + destruct (cookie_token req) as [c|] eqn:Hc;
        [|unfold userAuth in Hnext; rewrite Hc in Hnext; discriminate].
      destruct (jwt_verify c (JWT_SECRET env) now) as [error|p] eqn:Hv.
      * rewrite userAuth_rejects in Hnext by eauto. discriminate.
      * rewrite (userAuth_accepts now req c p Hc Hv) in Hnext.
        destruct (truthy (id p)) eqn:Hid; [|discriminate].
        injection Hnext as <-. exists c, p. repeat split; auto.
        cbn [body]. apply lookup_insert_eq.
  - intros v. unfold userRouter_get_data, userAuth. cbn [cookie_token body].
    destruct (no_token (cookie_token req)); [reflexivity|].
    destruct (cookie_token req) as [c|]; [|reflexivity].
    destruct (jwt_verify c (JWT_SECRET env) now) as [error|p]; [reflexivity|].
    destruct (truthy (id p)); [|reflexivity].
    now rewrite insert_insert_eq.
  - intros t Ht Hsig Hexp Hid.
    pose proof (jwt_verify_signed t now Hsig Hexp) as Hv.
    assert (Hrej : userAuth now req = Reply not_authorized).
    { destruct (String.eqb (JWT_SECRET env) "").
      - apply userAuth_rejects. eauto.
      - pose proof (userAuth_accepts now req _ _ Ht Hv) as Hacc.
        now rewrite Hid in Hacc. }
    split; [exact Hrej|]. unfold userRouter_get_data. now rewrite Hrej.
Qed.

(** *** The verification service *)

Lemma find_first_update_first_other (p q : doc -> bool) (f : doc -> doc)
    (db : collection) :
  (forall u, q (f u) = q u) ->
  (forall u, p u = true -> q u = false) ->
  userModel.find_first q (userModel.update_first p f db) = userModel.find_first q db.
Proof.
  intros Hq Hpq. induction db as [|u db IH]; simpl; [reflexivity|].
  destruct (p u) eqn:Hu; simpl.
  - now rewrite Hq, (Hpq u Hu).
  - now rewrite IH.
Qed.

Lemma findById_update (i : string) (f : doc -> doc) (db : collection) :
  (forall u, userModel._id (f u) = userModel._id u) ->
  userModel.findById (userModel.update_first (by_id i) f db) i
  = option_map f (userModel.findById db i).
Proof.
  intros Hf. apply find_first_update_first.
  intros u. unfold by_id. now rewrite Hf.
Qed.

Lemma findById_update_other (i j : string) (f : doc -> doc) (db : collection) :
  (forall u, userModel._id (f u) = userModel._id u) ->
  j <> i ->
  userModel.findById (userModel.update_first (by_id i) f db) j
  = userModel.findById db j.
Proof.
  intros Hf Hne. apply find_first_update_first_other.
  - intros u. now rewrite Hf.
  - intros u Hu. apply String.eqb_eq in Hu. apply String.eqb_neq. congruence.
Qed.

Lemma findOne_update (e : string) (f : doc -> doc) (db : collection) :
  (forall u, userModel.email (f u) = userModel.email u) ->
  userModel.findOne (userModel.update_first (by_email e) f db) e
  = option_map f (userModel.findOne db e).
Proof.
  intros Hf. apply find_first_update_first.
  intros u. unfold by_email. now rewrite Hf.
Qed.

(** The code matches and has not expired: the account is verified. *)
Lemma verifyAccount_done (db : collection) (now : Z) (accountId : string)
    (code : field) (user : doc) :
  userModel.findById db accountId = Some user ->
  missing code = false ->
  userModel.verifyOtp user = str code ->
  now <= userModel.verifyOtpExpireAt user ->
  verifyAccount db now accountId code
  = (Done,
     userModel.update_first (by_id accountId)
       (fun u => set_verifyOtp "" 0 (set_isAccountVerified true u)) db).
Proof.
  intros Hu Hc Hotp Hnow. unfold verifyAccount. rewrite Hc, Hu, Hotp.
  apply missing_false in Hc as [Hc _]. apply String.eqb_neq in Hc.
  rewrite Hc, String.eqb_refl. cbn [negb orb].
  destruct (Z.ltb_spec (userModel.verifyOtpExpireAt user) now); [lia|reflexivity].
Qed.

(** The code matches and has expired: it is cleared. *)
Lemma verifyAccount_expired (db : collection) (now : Z) (accountId : string)
    (code : field) (user : doc) :
  userModel.findById db accountId = Some user ->
  missing code = false ->
  userModel.verifyOtp user = str code ->
  userModel.verifyOtpExpireAt user < now ->
  verifyAccount db now accountId code
  = (Failed ExpiredCodeError,
     userModel.update_first (by_id accountId) (set_verifyOtp "" 0) db).
Proof.
  intros Hu Hc Hotp Hnow. unfold verifyAccount. rewrite Hc, Hu, Hotp.
  apply missing_false in Hc as [Hc _]. apply String.eqb_neq in Hc.
  rewrite Hc, String.eqb_refl. cbn [negb orb].
  destruct (Z.ltb_spec (userModel.verifyOtpExpireAt user) now); [reflexivity|lia].
Qed.

(** No code is stored: whatever is submitted is an invalid code. *)
Lemma verifyAccount_no_code (db : collection) (now : Z) (accountId : string)
    (code : field) (user : doc) :
  userModel.findById db accountId = Some user ->
  missing code = false ->
  userModel.verifyOtp user = "" ->
  verifyAccount db now accountId code = (Failed InvalidCodeError, db).
Proof.
  intros Hu Hc Hotp. unfold verifyAccount. now rewrite Hc, Hu, Hotp.
Qed.

(** What a consumed or expired verification code leaves behind. *)
Lemma verifyAccount_clears (db db' : collection) (now : Z) (accountId : string)
    (code : field) (r : Result) :
  verifyAccount db now accountId code = (r, db') ->
  r = Done \/ r = Failed ExpiredCodeError ->
  exists user',
    userModel.findById db' accountId = Some user'
    /\ userModel.verifyOtp user' = ""
    /\ userModel.verifyOtpExpireAt user' = 0.
Proof.
  unfold verifyAccount. intros Hrun Hr.
  destruct (missing code); [injection Hrun as <- _; now destruct Hr|].
  destruct (userModel.findById db accountId) as [user|] eqn:Hu;
    [|injection Hrun as <- _; now destruct Hr].
  destruct (_ || _); [injection Hrun as <- _; now destruct Hr|].
  destruct (_ <? _); injection Hrun as _ <-;
    rewrite findById_update, Hu by reflexivity; simpl; eauto.
Qed.

(** What a consumed or expired reset code leaves behind. *)
Lemma resetPassword_clears (db db' : collection) (now : Z) (salt : string)
    (email code newPassword : field) (r : Result) :
  resetPassword db now salt email code newPassword = (r, db') ->
  r = Done \/ r = Failed ExpiredCodeError ->
  exists user',
    userModel.findOne db' (str email) = Some user'
    /\ userModel.resetOtp user' = ""
    /\ userModel.resetOtpExpireAt user' = 0.
Proof.
  unfold resetPassword. intros Hrun Hr.
  destruct (_ || _); [injection Hrun as <- _; now destruct Hr|].
  destruct (userModel.findOne db (str email)) as [user|] eqn:Hu;
    [|injection Hrun as <- _; now destruct Hr].
  destruct (_ || _); [injection Hrun as <- _; now destruct Hr|].
  destruct (_ <? _); injection Hrun as _ <-;
    rewrite findOne_update, Hu by reflexivity; simpl; eauto.
Qed.

(** C1. After a verification code is consumed by a successful
    [verifyAccount], or a reset code by a successful [resetPassword], or
    either is found expired when it is checked, the stored code is the
    empty string and its expiry is zero. So [verifyAccount] with the
    stored code before its expiry succeeds, and a second call with the
    same code, at any time, fails with InvalidCodeError and changes
    nothing. *)
Theorem codes_single_use :
  (forall db db' now accountId code r,
     verifyAccount db now accountId code = (r, db') ->
     r = Done \/ r = Failed ExpiredCodeError ->
     exists user',
       userModel.findById db' accountId = Some user'
       /\ userModel.verifyOtp user' = ""
       /\ userModel.verifyOtpExpireAt user' = 0)
  /\ (forall db db' now salt email code newPassword r,
        resetPassword db now salt email code newPassword = (r, db') ->
        r = Done \/ r = Failed ExpiredCodeError ->
        exists user',
          userModel.findOne db' (str email) = Some user'
          /\ userModel.resetOtp user' = ""
          /\ userModel.resetOtpExpireAt user' = 0)
  /\ (forall db now1 now2 accountId code user,
        userModel.findById db accountId = Some user ->
        missing code = false ->
        userModel.verifyOtp user = str code ->
        now1 < userModel.verifyOtpExpireAt user ->
        exists db1 user1,
          verifyAccount db now1 accountId code = (Done, db1)
          /\ userModel.findById db1 accountId = Some user1
          /\ userModel.isAccountVerified user1 = true
          /\ verifyAccount db1 now2 accountId code = (Failed InvalidCodeError, db1)).
Proof.
  split; [|split].
  - intros. eapply verifyAccount_clears; eauto.
  - intros. eapply resetPassword_clears; eauto.
  - intros db now1 now2 accountId code user Hu Hc Hotp Hnow.
    eexists _, _. split; [apply (verifyAccount_done _ _ _ _ user); auto; lia|].
    assert (Hfind : forall f, (forall u, userModel._id (f u) = userModel._id u) ->
              userModel.findById (userModel.update_first (by_id accountId) f db) accountId
              = Some (f user)).
    { intros f Hf. now rewrite findById_update, Hu. }
    split; [apply Hfind; reflexivity|]. split; [reflexivity|].
    eapply verifyAccount_no_code; [apply Hfind; reflexivity|assumption|reflexivity].
Qed.

(** C6. For every account with a stored verification code,
    [verifyAccount] with that code at a time strictly after the expiry of
    the code fails with ExpiredCodeError; the only change is that the code
    of that account is cleared: its verification state is what it was, so
    an unverified account stays unverified, its other fields and the other
    accounts are untouched. *)
Theorem verifyAccount_after_expiry
    (db : collection) (now : Z) (accountId : string) (code : field) (user : doc) :
  userModel.findById db accountId = Some user ->
  missing code = false ->
  userModel.verifyOtp user = str code ->
  userModel.verifyOtpExpireAt user < now ->
  exists db' user',
    verifyAccount db now accountId code = (Failed ExpiredCodeError, db')
    /\ userModel.findById db' accountId = Some user'
    /\ userModel.isAccountVerified user' = userModel.isAccountVerified user
    /\ (userModel.isAccountVerified user = false ->
        userModel.isAccountVerified user' = false)
    /\ user' = set_verifyOtp "" 0 user
    /\ length db' = length db
    /\ (forall other, other <> accountId ->
          userModel.findById db' other = userModel.findById db other).
Proof.
  intros Hu Hc Hotp Hnow.
  eexists _, _. split; [apply (verifyAccount_expired _ _ _ _ user); assumption|].
  split; [now rewrite findById_update, Hu|].
  repeat split; auto.
  - apply length_update_first.
  - intros other Hne. now apply findById_update_other.
Qed.

(** The reset code matches and has not expired: the hash is replaced. *)
Lemma resetPassword_done (db : collection) (now : Z) (salt : string)
    (email code newPassword : field) (user : doc) :
  userModel.findOne db (str email) = Some user ->
  missing email = false -> missing code = false -> missing newPassword = false ->
  userModel.resetOtp user = str code ->
  now <= userModel.resetOtpExpireAt user ->
  resetPassword db now salt email code newPassword
  = (Done,
     userModel.update_first (by_email (str email))
       (fun u => set_resetOtp "" 0
                   (set_password (bcrypt_hash (str newPassword) salt) u)) db).
Proof.
  intros Hu He Hc Hp Hotp Hnow. unfold resetPassword.
  rewrite He, Hc, Hp, Hu, Hotp.
  apply missing_false in Hc as [Hc _]. apply String.eqb_neq in Hc.
  rewrite Hc, String.eqb_refl. cbn [negb orb].
  destruct (Z.ltb_spec (userModel.resetOtpExpireAt user) now); [lia|reflexivity].
Qed.

(** C5, as the code has it. On a server whose [JWT_SECRET] is not empty,
    for every account with a pending reset code that is non-empty and
    unexpired, [resetPassword] with that code and a new password succeeds,
    stores the hash of the new password in place of the old hash and
    clears the reset code and its expiry. If bcrypt does not accept the
    old password, which logged in before, for the new hash, the old
    password then fails to log in with AuthError, and the new password
    logs in. *)
Theorem resetPassword_changes_login
    (db : collection) (now before after1 after2 : Z) (salt : string)
    (email code newPassword oldPassword : field) (user : doc) :
  JWT_SECRET env <> "" ->
  userModel.findOne db (str email) = Some user ->
  missing email = false -> missing code = false ->
  missing newPassword = false -> missing oldPassword = false ->
  userModel.resetOtp user = str code ->
  now < userModel.resetOtpExpireAt user ->
  bcrypt_compare (str oldPassword) (userModel.password user) = true ->
  bcrypt_compare (str oldPassword) (bcrypt_hash (str newPassword) salt) = false ->
  exists db' user',
    resetPassword db now salt email code newPassword = (Done, db')
    /\ userModel.findOne db' (str email) = Some user'
    /\ userModel.password user' = bcrypt_hash (str newPassword) salt
    /\ userModel.resetOtp user' = ""
    /\ userModel.resetOtpExpireAt user' = 0
    /\ success (json (fst (login db before email oldPassword))) = true
    /\ fails_with (fst (login db' after1 email oldPassword)) AuthError
    /\ login db' after2 email newPassword
       = (session_response (userModel._id user) after2, db').
Proof.
  intros Hs Hu He Hc Hn Ho Hotp Hnow Hold Hdiff.
  eexists _, _. split; [apply (resetPassword_done _ _ _ _ _ _ user); auto; lia|].
  match goal with |- userModel.findOne ?d _ = _ /\ _ =>
    assert (Hfind : userModel.findOne d (str email)
                    = Some (set_resetOtp "" 0
                              (set_password (bcrypt_hash (str newPassword) salt) user)))
      by now rewrite findOne_update, Hu
  end.
  split; [exact Hfind|]. split; [reflexivity|]. split; [reflexivity|].
  split; [reflexivity|]. split; [|split].
  - now rewrite (login_accepted _ _ _ _ user).
  - rewrite (login_rejected _ _ _ _ _ He Ho Hfind) by exact Hdiff.
    split; [reflexivity|]. now exists "Invalid password".
  - rewrite (login_accepted _ _ _ _ _ Hs He Hn Hfind); [reflexivity|].
    apply bcrypt_compare_hash.
Qed.

(** C9. Every code generated matches [^[0-9]{6}$]: six decimal digits,
    zero-padded; it is the code [sendVerificationCode] stores with a
    24-hour expiry and [requestPasswordReset] with a 15-minute expiry. The
    draw is uniform: every string of six digits is the code of exactly one
    seed of the range the seed is drawn from. *)
Theorem generateOtp_six_digits_uniform :
  (forall seed, matches_otp_regex (generateOtp seed) = true)
  /\ (forall db now seed accountId user,
        userModel.findById db accountId = Some user ->
        userModel.isAccountVerified user = false ->
        exists user',
          userModel.findById (snd (sendVerificationCode db now seed accountId)) accountId
          = Some user'
          /\ userModel.verifyOtp user' = generateOtp seed
          /\ matches_otp_regex (userModel.verifyOtp user') = true
          /\ userModel.verifyOtpExpireAt user' = now + 24 * 60 * 60 * 1000)
  /\ (forall db now seed email user,
        userModel.findOne db email = Some user ->
        exists user',
          userModel.findOne (snd (requestPasswordReset db now seed email)) email
          = Some user'
          /\ userModel.resetOtp user' = generateOtp seed
          /\ matches_otp_regex (userModel.resetOtp user') = true
          /\ userModel.resetOtpExpireAt user' = now + 15 * 60 * 1000)
  /\ (forall s, matches_otp_regex s = true ->
        exists seed,
          (seed < otp_space)%N /\ generateOtp seed = s
          /\ forall seed', (seed' < otp_space)%N -> generateOtp seed' = s -> seed' = seed).
Proof.
  split; [exact generateOtp_format|]. split; [|split].
  - intros db now seed accountId user Hu Hv.
    exists (set_verifyOtp (generateOtp seed) (now + hours_24) user).
    split; [|split; [reflexivity|split; [apply generateOtp_format|reflexivity]]].
    unfold sendVerificationCode. rewrite Hu, Hv.
    destruct (sendMail _ _); cbn [snd]; now rewrite findById_update, Hu.
  - intros db now seed email user Hu.
    exists (set_resetOtp (generateOtp seed) (now + minutes_15) user).
    split; [|split; [reflexivity|split; [apply generateOtp_format|reflexivity]]].
    unfold requestPasswordReset. rewrite Hu.
    destruct (sendMail _ _); cbn [snd]; now rewrite findOne_update, Hu.
  - intros s Hs. destruct (generateOtp_surj s Hs) as [Hlt Hgen].
    exists (otp_value s). split; [exact Hlt|]. split; [exact Hgen|].
    intros seed' Hlt' Hgen'. apply generateOtp_inj; congruence.
Qed.

(** *** What the handlers do on every input *)

Lemma save_inr (db db' : collection) (u : doc) :
  userModel.save db u = inr db' ->
  db' = db ++ [u]
  /\ required_present u = true
  /\ userModel.findOne db (userModel.email u) = None.
Proof.
  unfold userModel.save, required_present.
  destruct (String.eqb (userModel.name u) ""); [discriminate|].
  destruct (String.eqb (userModel.email u) ""); [discriminate|].
  destruct (String.eqb (userModel.password u) ""); [discriminate|].
  destruct (existsb _ db) eqn:Hex; [discriminate|].
  intros [= <-]. repeat split.
  unfold userModel.findOne. clear -Hex.
  induction db as [|v db IH]; [reflexivity|].
  simpl in *. destruct (String.eqb (userModel.email v) (userModel.email u));
    [discriminate|]. now apply IH.
Qed.

Lemma find_first_app_Some (p : doc -> bool) (db more : collection) (u : doc) :
  userModel.find_first p db = Some u ->
  userModel.find_first p (db ++ more) = Some u.
Proof.
  induction db as [|v db IH]; simpl; [discriminate|].
  destruct (p v); [trivial|]. exact IH.
Qed.

Lemma find_first_app_other (p : doc -> bool) (db : collection) (u : doc) :
  p u = false ->
  userModel.find_first p (db ++ [u]) = userModel.find_first p db.
Proof.
  intros Hu. induction db as [|v db IH]; simpl; [now rewrite Hu|].
  destruct (p v); [reflexivity|]. exact IH.
Qed.

Lemma answer_after_sign_cases (oid : string) (now : Z) :
  (JWT_SECRET env = ""
   /\ answer_after_sign oid now
      = res_json false (Some "secretOrPrivateKey must have a value"))
  \/ (JWT_SECRET env <> "" /\ answer_after_sign oid now = session_response oid now).
Proof.
  unfold answer_after_sign.
  destruct (String.eqb (JWT_SECRET env) "") eqn:Hs.
  - left. split; [now apply String.eqb_eq|reflexivity].
  - right. split; [now apply String.eqb_neq|reflexivity].
Qed.

(** [register] either stores nothing and sets no cookie, or appends the new
    account and answers as [jwt.sign] allows. *)
Lemma register_cases (db : collection) (now : Z) (salt oid : string)
    (name email password : field) :
  let r := register db now salt oid name email password in
  (success (json (fst r)) = false /\ cookies_set (fst r) = [] /\ snd r = db)
  \/ (fst r = answer_after_sign oid now
      /\ snd r = db ++ [userModel.new oid (str name) (str email)
                          (bcrypt_hash (str password) salt)]
      /\ missing name = false /\ missing email = false /\ missing password = false
      /\ userModel.findOne db (str email) = None
      /\ bcrypt_hash (str password) salt <> "").
Proof.
  unfold register.
  destruct (missing name) eqn:Hn; [now left|].
  destruct (missing email) eqn:He; [now left|].
  destruct (missing password) eqn:Hp; [now left|]. cbn [orb].
  destruct (userModel.findOne db (str email)) as [u|] eqn:Hfind; [now left|].
  destruct (userModel.save db _) as [error|db'] eqn:Hsave; [now left|].
  right. apply save_inr in Hsave as (-> & Hreq & _).
  split.
  { unfold jwt_sign, answer_after_sign.
    now destruct (String.eqb (JWT_SECRET env) ""). }
  split.
  { unfold jwt_sign. now destruct (String.eqb (JWT_SECRET env) ""). }
  repeat split.
  unfold required_present in Hreq. cbn [userModel.password userModel.new] in Hreq.
  apply andb_prop in Hreq as [_ Hpw]. apply negb_true_iff in Hpw.
  now apply String.eqb_neq.
Qed.

(** [login] never writes; it answers a failure of its own, or as
    [jwt.sign] allows for the account it has found. *)
Lemma login_cases (db : collection) (now : Z) (email password : field) :
  let r := login db now email password in
  snd r = db
  /\ ((success (json (fst r)) = false /\ cookies_set (fst r) = []
       /\ (missing email = true \/ missing password = true
           \/ userModel.findOne db (str email) = None
           \/ exists user, userModel.findOne db (str email) = Some user
                           /\ bcrypt_compare (str password) (userModel.password user)
                              = false))
      \/ (missing email = false /\ missing password = false
          /\ exists user,
               userModel.findOne db (str email) = Some user
               /\ bcrypt_compare (str password) (userModel.password user) = true
               /\ fst r = answer_after_sign (userModel._id user) now)).
Proof.
  unfold login.
  destruct (missing email) eqn:He; [split; [reflexivity|left; auto]|].
  destruct (missing password) eqn:Hp; [split; [reflexivity|left; auto]|]. cbn [orb].
  destruct (userModel.findOne db (str email)) as [user|] eqn:Hfind;
    [|split; [reflexivity|left; auto 6]].
  destruct (bcrypt_compare (str password) (userModel.password user)) eqn:Hc; cbn [negb].
  - split.
    { unfold jwt_sign. now destruct (String.eqb (JWT_SECRET env) ""). }
    right. split; [reflexivity|]. split; [reflexivity|].
    exists user. split; [reflexivity|]. split; [exact Hc|].
    unfold jwt_sign, answer_after_sign. now destruct (String.eqb (JWT_SECRET env) "").
  - split; [reflexivity|left]. repeat split. do 3 right. now exists user.
Qed.

(** X1. [register] sets a cookie exactly when it answers success, and then
    it has appended exactly the new account, with the schema defaults,
    under an email no account had. A failure sets no cookie; it leaves the
    collection as it was on a server whose [JWT_SECRET] is not empty, but
    with an empty secret a registration that passes the guards has stored
    the account when [jwt.sign] throws and the failure is answered. *)
Theorem register_cookie_only_on_success
    (db : collection) (now : Z) (salt oid : string) (name email password : field) :
  let r := register db now salt oid name email password in
  let user := userModel.new oid (str name) (str email)
                (bcrypt_hash (str password) salt) in
  (success (json (fst r)) = true ->
     JWT_SECRET env <> ""
     /\ snd r = db ++ [user]
     /\ cookies_set (fst r)
        = [token_cookie (signed_token (JStr oid) (JWT_SECRET env) expiresIn_7d now)]
     /\ userModel.findOne db (str email) = None
     /\ str name <> "" /\ str email <> "" /\ str password <> "")
  /\ (success (json (fst r)) = false ->
      cookies_set (fst r) = []
      /\ (snd r = db
          \/ (JWT_SECRET env = "" /\ snd r = db ++ [user]
              /\ message (json (fst r)) = Some "secretOrPrivateKey must have a value")))
  /\ (JWT_SECRET env <> "" -> success (json (fst r)) = false -> snd r = db).
Proof.
  intros r user; subst r user.
  destruct (register_cases db now salt oid name email password)
    as [(Hs & Hc & Hdb)|(Hr & Hdb & Hn & He & Hp & Hfresh & _)].
  - split; [congruence|]. split; [intros _; split; [exact Hc|left; exact Hdb]|].
    intros _ _. exact Hdb.
  - rewrite Hr, Hdb.
    destruct (answer_after_sign_cases oid now) as [[Hs ->]|[Hs ->]].
    + split; [discriminate|]. split; [|congruence].
      intros _. split; [reflexivity|]. right. auto.
    + apply missing_false in Hn as [Hn _], He as [He _], Hp as [Hp _].
      split; [intros _; auto 8|]. split; discriminate.
Qed.


(** X3. [login] never changes the collection. It answers success exactly
    when [JWT_SECRET] is not empty, both fields are present, an account
    has the email and [bcrypt.compare] accepts the password for the stored
    hash; then the cookie holds a token for the id of that account, and
    otherwise no cookie is set. *)
Theorem login_success_iff
    (db : collection) (now : Z) (email password : field) :
  let r := login db now email password in
  snd r = db
  /\ (success (json (fst r)) = true <->
      JWT_SECRET env <> ""
      /\ missing email = false /\ missing password = false
      /\ exists user, userModel.findOne db (str email) = Some user
                      /\ bcrypt_compare (str password) (userModel.password user) = true)
  /\ (forall user, success (json (fst r)) = true ->
                   userModel.findOne db (str email) = Some user ->
                   cookies_set (fst r)
                   = [token_cookie (signed_token (JStr (userModel._id user))
                                      (JWT_SECRET env) expiresIn_7d now)])
  /\ (success (json (fst r)) = false -> cookies_set (fst r) = []).
Proof.
  intros r; subst r.
  destruct (login_cases db now email password) as [Hdb Hcases].
  split; [exact Hdb|].
  destruct Hcases as [(Hs & Hc & Hwhy)|(He & Hp & user & Hfind & Hok & Hr)].
  - split; [|split].
    + split; [congruence|]. intros (_ & He & Hp & user & Hfind & Hok).
      destruct Hwhy as [H|[H|[H|(u & Hu & Hno)]]]; congruence.
    + congruence.
    + auto.
  - rewrite Hr.
    destruct (answer_after_sign_cases (userModel._id user) now) as [[Hs ->]|[Hs ->]].
    + split; [|split].
      * split; [discriminate|]. intros (Hne & _). congruence.
      * discriminate.
      * reflexivity.
    + split; [|split].
      * split; [eauto 7|reflexivity].
      * intros u _ Hu. assert (u = user) as -> by congruence. reflexivity.
      * discriminate.
Qed.

(** X4. Every cookie [register] or [login] sets is named [token], is
    HTTP-only and lives 7 days; it is [secure] exactly when [NODE_ENV] is
    "production", and exactly then its [sameSite] is "none", being "strict"
    otherwise: a cookie sent cross-site is always a secure one. *)
Theorem session_cookie_attributes
    (db : collection) (now : Z) (salt oid : string)
    (name email password : field) (c : Cookie) :
  In c (cookies_set (fst (register db now salt oid name email password)))
  \/ In c (cookies_set (fst (login db now email password))) ->
  cookie_name c = "token"
  /\ httpOnly c = true
  /\ maxAge c = 604800000
  /\ (secure c = true <-> NODE_ENV env = "production")
  /\ (sameSite c = "none" <-> secure c = true)
  /\ (sameSite c = "strict" <-> secure c = false).
Proof.
  assert (Hattr : forall t, c = token_cookie t ->
            cookie_name c = "token" /\ httpOnly c = true /\ maxAge c = 604800000
            /\ (secure c = true <-> NODE_ENV env = "production")
            /\ (sameSite c = "none" <-> secure c = true)
            /\ (sameSite c = "strict" <-> secure c = false)).
  { intros t ->. unfold token_cookie. cbn [cookie_name httpOnly maxAge secure sameSite].
    repeat split; try apply String.eqb_eq;
      destruct (String.eqb (NODE_ENV env) "production"); congruence. }
  intros [Hin|Hin].
  - destruct (register_cases db now salt oid name email password)
      as [(_ & Hc & _)|(Hr & _)].
    + rewrite Hc in Hin. destruct Hin.
    + rewrite Hr in Hin.
      destruct (answer_after_sign_cases oid now) as [[_ Ha]|[_ Ha]];
        rewrite Ha in Hin; [destruct Hin|].
      destruct Hin as [<-|[]]. now eapply Hattr.
  - destruct (login_cases db now email password)
      as [_ [(_ & Hc & _)|(_ & _ & user & _ & _ & Hr)]].
    + rewrite Hc in Hin. destruct Hin.
    + rewrite Hr in Hin.
      destruct (answer_after_sign_cases (userModel._id user) now) as [[_ Ha]|[_ Ha]];
        rewrite Ha in Hin; [destruct Hin|].
      destruct Hin as [<-|[]]. now eapply Hattr.
Qed.

(** *** The lifetime of a session *)

Lemma jwt_verify_sign_expired (i : jsval) (secret : string) (expiresIn now check : Z) :
  secret <> "" ->
  now / 1000 + expiresIn <= check / 1000 ->
  jwt_verify (Tok (signed_token i secret expiresIn now)) secret check = inl TokenExpired.
Proof.
  intros Hs Hle. unfold jwt_verify, signed_token. cbn [signature payload exp].
  apply String.eqb_neq in Hs. rewrite Hs.
  rewrite String.eqb_refl. cbn [negb].
  destruct (Z.leb_spec (now / 1000 + expiresIn) (check / 1000)); [reflexivity|lia].
Qed.

(** The second in which a time in milliseconds falls, against a bound in
    seconds. *)
Lemma seconds_lt_iff (check bound : Z) : check / 1000 < bound <-> check < bound * 1000.
Proof.
  pose proof (Z.div_mod check 1000 ltac:(lia)) as Hdm.
  pose proof (Z.mod_pos_bound check 1000 ltac:(lia)) as Hr.
  lia.
Qed.

(** X6. On a server whose [JWT_SECRET] is not empty, the cookie a
    successful [login] sets opens the protected route for 7 days:
    presented before the token expires, it passes [userAuth] and
    the handler is invoked once, with the id of the account that logged in
    under [userId]; presented from the expiry on, it is answered "Not
    Authorized, login again" and the handler is not invoked. *)
Theorem login_cookie_authenticates
    (db : collection) (now check : Z) (email password : field) (user : doc)
    (b : gmap string jsval) :
  JWT_SECRET env <> "" ->
  missing email = false -> missing password = false ->
  userModel.findOne db (str email) = Some user ->
  bcrypt_compare (str password) (userModel.password user) = true ->
  userModel._id user <> "" ->
  exists c,
    cookies_set (fst (login db now email password)) = [c]
    /\ (check < (now / 1000 + 604800) * 1000 ->
        userRouter_get_data check
          {| cookie_token := Some (Tok (cookie_value c)); body := b |}
        = let req' := {| cookie_token := Some (Tok (cookie_value c));
                         body := <["userId" := JStr (userModel._id user)]> b |} in
          {| sent := getUserData req'; handler_calls := [req'] |})
    /\ ((now / 1000 + 604800) * 1000 <= check ->
        userRouter_get_data check
          {| cookie_token := Some (Tok (cookie_value c)); body := b |}
        = {| sent := not_authorized; handler_calls := [] |}).
Proof.
  intros Hs He Hp Hfind Hok Hid.
  rewrite (login_accepted _ _ _ _ user) by assumption.
  eexists. split; [reflexivity|]. cbn [cookie_value token_cookie].
  split.
  - intros Hlt. apply seconds_lt_iff in Hlt.
    unfold userRouter_get_data.
    erewrite userAuth_accepts; [|reflexivity|now apply jwt_verify_sign].
    cbn [id payload signed_token truthy].
    apply String.eqb_neq in Hid. rewrite Hid. reflexivity.
  - intros Hge. unfold userRouter_get_data.
    rewrite userAuth_rejects; [reflexivity|].
    right. eexists _, _. split; [reflexivity|].
    apply jwt_verify_sign_expired; [assumption|]. change expiresIn_7d with 604800.
    destruct (Z.lt_ge_cases (check / 1000) (now / 1000 + 604800)) as [Hlt|Hle];
      [apply seconds_lt_iff in Hlt; lia|exact Hle].
Qed.

(** X7. [userAuth] lets a request through exactly when [JWT_SECRET] is
    not empty and the cookie is a well-formed token, signed under that
    secret, not expired (or without expiry claim) and with a truthy id in
    its payload. *)
Theorem userAuth_lets_through_iff (now : Z) (req : Request) :
  (exists req', userAuth now req = Next req')
  <-> JWT_SECRET env <> ""
      /\ exists t,
        cookie_token req = Some (Tok t)
        /\ signature t = hmac (JWT_SECRET env) (payload t)
        /\ (forall e, exp (payload t) = Some e -> now / 1000 < e)
        /\ truthy (id (payload t)) = true.
Proof.
  split.
  - intros [req' Hnext]. unfold userAuth in Hnext. cbv zeta in Hnext.
    destruct (cookie_token req) as [[s|t]|] eqn:Hc; cbn [no_token] in Hnext.
    + destruct (String.eqb s ""); discriminate.
    + cbn [jwt_verify] in Hnext.
      destruct (String.eqb (JWT_SECRET env) "") eqn:Hs; [discriminate|].
      apply String.eqb_neq in Hs. split; [exact Hs|].
      exists t. split; [reflexivity|].
      destruct (String.eqb (signature t) (hmac (JWT_SECRET env) (payload t))) eqn:Hsig;
        cbn [negb] in Hnext; [|discriminate].
      apply String.eqb_eq in Hsig. split; [exact Hsig|].
      destruct (exp (payload t)) as [e|] eqn:He.
      * destruct (Z.leb_spec e (now / 1000)); [discriminate|].
        destruct (truthy (id (payload t))); [|discriminate].
        split; [|reflexivity]. intros e' [= <-]. assumption.
      * destruct (truthy (id (payload t))); [|discriminate].
        split; [|reflexivity]. discriminate.
    + discriminate.
  - intros (Hs & t & Hc & Hsig & Hexp & Hid).
    pose proof (jwt_verify_signed t now Hsig Hexp) as Hv.
    apply String.eqb_neq in Hs. rewrite Hs in Hv.
    rewrite (userAuth_accepts now req _ _ Hc Hv), Hid. eauto.
Qed.

(** X8. A request [userAuth] lets through differs from the one that came in
    by the [userId] of its body alone: the cookie and every other key of
    the body are untouched; and the middleware lets the result through
    again, unchanged. *)
Theorem userAuth_frame (now : Z) (req req' : Request) :
  userAuth now req = Next req' ->
  cookie_token req' = cookie_token req
  /\ (forall k, k <> "userId" -> body req' !! k = body req !! k)
  /\ userAuth now req' = Next req'.
Proof.
  intros Hnext.
  destruct (cookie_token req) as [c|] eqn:Hc;
    [|unfold userAuth in Hnext; rewrite Hc in Hnext; discriminate].
  destruct (jwt_verify c (JWT_SECRET env) now) as [error|p] eqn:Hv.
  { rewrite userAuth_rejects in Hnext by eauto. discriminate. }
  rewrite (userAuth_accepts now req c p Hc Hv) in Hnext.
  destruct (truthy (id p)) eqn:Hid; [|discriminate].
  injection Hnext as <-. cbn [cookie_token body].
  split; [exact Hc|]. split.
  - intros k Hk. now apply lookup_insert_ne.
  - erewrite userAuth_accepts; [|cbn [cookie_token]; exact Hc|exact Hv].
    rewrite Hid. cbn [cookie_token body]. now rewrite insert_insert_eq, Hc.
Qed.

(** *** The collection over time *)

Lemma find_first_existsb (p : doc -> bool) (db : collection) :
  userModel.find_first p db = None <-> existsb p db = false.
Proof.
  split; [apply find_first_None_existsb|].
  induction db as [|u db IH]; simpl; [reflexivity|].
  destruct (p u); [discriminate|]. exact IH.
Qed.

Lemma emails_unique_app (db : collection) (u : doc) :
  emails_unique db = true ->
  userModel.findOne db (userModel.email u) = None ->
  emails_unique (db ++ [u]) = true.
Proof.
  intros Hdb Hfresh. apply find_first_existsb in Hfresh.
  induction db as [|v db IH]; [reflexivity|].
  cbn [emails_unique app] in *. cbn [existsb] in Hfresh.
  apply andb_prop in Hdb as [Hv Hdb].
  apply orb_false_elim in Hfresh as [Hvu Hfresh].
  rewrite IH by assumption. rewrite andb_true_r.
  rewrite existsb_app. cbn [existsb]. rewrite orb_false_r.
  apply negb_true_iff in Hv. rewrite Hv. cbn [orb].
  unfold by_email. rewrite String.eqb_sym. now rewrite Hvu.
Qed.

(** One request to [authRouter] leaves the collection as it was or appends
    one valid account under a fresh email. *)
Lemma authRouter_step (db : collection) (call : AuthCall) :
  snd (authRouter db call) = db
  \/ exists u,
       snd (authRouter db call) = db ++ [u]
       /\ required_present u = true
       /\ userModel.findOne db (userModel.email u) = None.
Proof.
  destruct call as [now salt oid name email password|now email password];
    cbn [authRouter].
  - destruct (register_cases db now salt oid name email password)
      as [(_ & _ & Hdb)|(_ & Hdb & Hn & He & _ & Hfresh & Hpw)]; [now left|right].
    eexists. split; [exact Hdb|].
    apply missing_false in Hn as [Hn _], He as [He _].
    apply String.eqb_neq in Hn, He, Hpw.
    unfold required_present. cbn [userModel.name userModel.email userModel.password
                                  userModel.new].
    rewrite Hn, He, Hpw. split; [reflexivity|exact Hfresh].
  - left. apply login_cases.
Qed.

Lemma serve_extends (db : collection) (calls : list AuthCall) :
  exists added, serve db calls = db ++ added.
Proof.
  revert db; induction calls as [|call calls IH]; intros db; cbn [serve].
  - exists []. now rewrite app_nil_r.
  - destruct (authRouter_step db call) as [->|(u & -> & _)]; [apply IH|].
    destruct (IH (db ++ [u])) as [added ->].
    exists (u :: added). now rewrite <- app_assoc.
Qed.

(** X10. Whatever requests [authRouter] serves, in whatever order, the
    collection keeps the emails of its accounts distinct and their name,
    email and password hash non-empty, if it had them so at the start; in
    particular from the empty collection. *)
Theorem serve_keeps_collection_valid (db : collection) (calls : list AuthCall) :
  emails_unique db = true ->
  forallb required_present db = true ->
  emails_unique (serve db calls) = true
  /\ forallb required_present (serve db calls) = true.
Proof.
  revert db; induction calls as [|call calls IH]; intros db Huniq Hreq;
    cbn [serve]; [auto|].
  destruct (authRouter_step db call) as [->|(u & -> & Hu & Hfresh)]; [now apply IH|].
  apply IH.
  - now apply emails_unique_app.
  - rewrite forallb_app, Hreq. cbn [forallb]. now rewrite Hu.
Qed.

(** X11. No request to [authRouter] removes or alters a stored account: the
    collection after any sequence of requests is the collection before
    with accounts appended, and whatever an email or an id found before, it
    finds afterwards. *)
Theorem serve_never_alters_accounts (db : collection) (calls : list AuthCall) :
  exists added,
    serve db calls = db ++ added
    /\ (forall e u, userModel.findOne db e = Some u ->
                    userModel.findOne (serve db calls) e = Some u)
    /\ (forall i u, userModel.findById db i = Some u ->
                    userModel.findById (serve db calls) i = Some u)
    /\ (length db <= length (serve db calls))%nat.
Proof.
  destruct (serve_extends db calls) as [added Hadd]. exists added.
  rewrite Hadd. split; [reflexivity|]. split; [|split].
  - intros e u. apply find_first_app_Some.
  - intros i u. apply find_first_app_Some.
  - rewrite length_app. lia.
Qed.

(** X12. On a server whose [JWT_SECRET] is not empty, an account that has
    registered can log in with its password after any further requests to
    [authRouter]: the login succeeds and its cookie is for the id the
    account was registered under. *)
Theorem registered_account_keeps_logging_in
    (db : collection) (now later : Z) (salt oid : string)
    (name email password : field) (calls : list AuthCall) :
  JWT_SECRET env <> "" ->
  missing name = false -> missing email = false -> missing password = false ->
  userModel.findOne db (str email) = None ->
  let db' := serve (snd (register db now salt oid name email password)) calls in
  login db' later email password = (session_response oid later, db').
Proof.
  intros Hs Hn He Hp Hfresh db'. subst db'.
  rewrite register_fresh by assumption. cbn [snd].
  set (user := userModel.new oid (str name) (str email) (bcrypt_hash (str password) salt)).
  destruct (serve_extends (db ++ [user]) calls) as [added ->].
  rewrite (login_accepted _ _ _ _ user); [reflexivity|assumption ..| |].
  - apply find_first_app_Some. unfold userModel.findOne in Hfresh.
    rewrite find_first_app by exact Hfresh.
    subst user. cbn [userModel.email userModel.new]. now rewrite String.eqb_refl.
  - apply bcrypt_compare_hash.
Qed.

(** X13. A registration does not change what [login] answers for an email
    other than the registered one, nor for an email that had an account
    already. *)
Theorem register_leaves_other_logins
    (db : collection) (now now2 : Z) (salt oid : string)
    (name email password email2 password2 : field) :
  str email2 <> str email \/ userModel.findOne db (str email2) <> None ->
  fst (login (snd (register db now salt oid name email password)) now2 email2 password2)
  = fst (login db now2 email2 password2).
Proof.
  intros Hother.
  destruct (register_cases db now salt oid name email password)
    as [(_ & _ & ->)|(_ & -> & _ & _ & _ & Hfresh & _)]; [reflexivity|].
  assert (Hfind : userModel.findOne
                    (db ++ [userModel.new oid (str name) (str email)
                              (bcrypt_hash (str password) salt)]) (str email2)
                  = userModel.findOne db (str email2)).
  { destruct (userModel.findOne db (str email2)) as [v|] eqn:Hv.
    - now apply find_first_app_Some.
    - destruct Hother as [Hne|Hex]; [|congruence].
      unfold userModel.findOne in *. rewrite find_first_app_other; [exact Hv|].
      cbn [userModel.email userModel.new]. apply String.eqb_neq. congruence. }
  unfold login. rewrite Hfind.
  destruct (missing email2 || missing password2); [reflexivity|].
  destruct (userModel.findOne db (str email2)) as [v|]; [|reflexivity].
  destruct (negb _); [reflexivity|].
  now destruct (jwt_sign _ _ _ _).
Qed.

(** *** The submit handler of the login page *)

Lemma on_error_text (m : field) :
  exists text, on_error m = [ToastError (Some text)] /\ text <> ""
               /\ (missing m = false -> text = str m).
Proof.
  unfold on_error. eexists. split; [reflexivity|].
  destruct (missing m) eqn:Hm; [split; discriminate|].
  split; [now apply missing_false in Hm|reflexivity].
Qed.

(** What either branch of the handler does with the answer it awaits. *)
Lemma answer_effects (done : string) (answer : AxiosResult) :
  let effects :=
    match answer with
    | Resolved data =>
        if success data then [ToastSuccess done; Navigate "/"]
        else [ToastError (message data)]
    | Rejected response_message => on_error response_message
    end in
  length (List.filter is_toast effects) = 1%nat
  /\ (forall to, In (Navigate to) effects ->
                 to = "/" /\ exists data, answer = Resolved data /\ success data = true)
  /\ (forall data, answer = Resolved data -> success data = true ->
                   In (Navigate "/") effects)
  /\ (forall data, answer = Resolved data -> success data = false ->
                   effects = [ToastError (message data)])
  /\ (forall response_message, answer = Rejected response_message ->
        exists text, effects = [ToastError (Some text)] /\ text <> ""
                     /\ (missing response_message = false -> text = str response_message)).
Proof.
  intros effects; subst effects.
  destruct answer as [data|m].
  - destruct (success data) eqn:Hs.
    + split; [reflexivity|]. split; [|split; [|split]].
      * intros to [Hin|[Hin|[]]]; [discriminate|]. injection Hin as <-. eauto.
      * intros _ _ _. right. now left.
      * intros d [= <-] Hd. congruence.
      * discriminate.
    + split; [reflexivity|]. split; [|split; [|split]].
      * intros to [Hin|[]]. discriminate.
      * intros d [= <-] Hd. congruence.
      * intros d [= <-] _. reflexivity.
      * discriminate.
  - destruct (on_error_text m) as (text & -> & Hne & Hstr).
    split; [reflexivity|]. split; [|split; [|split]].
    + intros to [Hin|[]]. discriminate.
    + discriminate.
    + discriminate.
    + intros m' [= <-]. eauto.
Qed.

(** X14. Whatever the request comes to, [onSubmitHandler] shows exactly one
    toast; it navigates, and then to "/", exactly when the request resolved
    with [success] true; a resolved failure shows the message of the
    response as it is, and a rejected request shows a non-empty text, the
    message of the error response or "Something went wrong". *)
Theorem onSubmitHandler_navigates_iff_success (state name email password : string) :
  let effects := onSubmitHandler state name email password in
  let answer :=
    if String.eqb state "Sign Up"
    then axios_post register_url (Some name) (Some email) (Some password)
    else axios_post login_url None (Some email) (Some password) in
  length (List.filter is_toast effects) = 1%nat
  /\ (forall to, In (Navigate to) effects ->
                 to = "/" /\ exists data, answer = Resolved data /\ success data = true)
  /\ (forall data, answer = Resolved data -> success data = true ->
                   In (Navigate "/") effects)
  /\ (forall data, answer = Resolved data -> success data = false ->
                   effects = [ToastError (message data)])
  /\ (forall response_message, answer = Rejected response_message ->
        exists text, effects = [ToastError (Some text)] /\ text <> ""
                     /\ (missing response_message = false -> text = str response_message)).
Proof.
  intros effects answer. subst effects answer. unfold onSubmitHandler.
  destruct (String.eqb state "Sign Up"); apply answer_effects.
Qed.

(** X15. When the two requests of the page are served by [register] and
    [login] on a collection, by a server whose [JWT_SECRET] is not empty,
    a sign-up with all fields filled in shows the
    success toast and navigates if the email is fresh, and shows "User
    already exists" and stays if it is taken; a login shows "Invalid
    email" if no account has the email, "Invalid password" if bcrypt
    rejects the password, and else the success toast, and navigates. *)
Theorem login_page_shows_server_answer
    (db : collection) (now : Z) (salt oid : string) (name email password : string) :
  JWT_SECRET env <> "" ->
  name <> "" -> email <> "" -> password <> "" ->
  axios_post register_url (Some name) (Some email) (Some password)
  = Resolved (json (fst (register db now salt oid
                           (Some name) (Some email) (Some password)))) ->
  axios_post login_url None (Some email) (Some password)
  = Resolved (json (fst (login db now (Some email) (Some password)))) ->
  onSubmitHandler "Sign Up" name email password
  = match userModel.findOne db email with
    | None => [ToastSuccess "Account created successfully!"; Navigate "/"]
    | Some _ => [ToastError (Some "User already exists")]
    end
  /\ onSubmitHandler "Login" name email password
     = match userModel.findOne db email with
       | None => [ToastError (Some "Invalid email")]
       | Some user =>
           if bcrypt_compare password (userModel.password user)
           then [ToastSuccess "Login successful!"; Navigate "/"]
           else [ToastError (Some "Invalid password")]
       end.
Proof.
  intros Hsecret Hn He Hp Hreg Hlog.
  assert (Hm : forall s : string, s <> "" -> missing (Some s) = false)
    by (intros s Hs; now apply String.eqb_neq).
  unfold onSubmitHandler. cbn [String.eqb Ascii.eqb Bool.eqb].
  rewrite Hreg, Hlog. split.
  - destruct (userModel.findOne db email) as [u|] eqn:Hfind.
    + rewrite (register_existing _ _ _ _ _ _ _ u); auto.
    + rewrite register_fresh; auto.
  - destruct (userModel.findOne db email) as [user|] eqn:Hfind.
    + destruct (bcrypt_compare password (userModel.password user)) eqn:Hc.
      * rewrite (login_accepted _ _ _ _ user); auto.
      * rewrite (login_rejected _ _ _ _ user); auto.
    + rewrite login_unknown; auto.
Qed.

(** X16. On a server whose [JWT_SECRET] is not empty, the cookie a
    successful [register] sets opens the protected route as the cookie of
    a login does: presented before the token expires, it
    passes [userAuth] and the handler is invoked once with the id of the
    new account under [userId]; from the expiry on it is rejected. *)
Theorem register_cookie_authenticates
    (db : collection) (now check : Z) (salt oid : string)
    (name email password : field) (b : gmap string jsval) :
  JWT_SECRET env <> "" ->
  missing name = false -> missing email = false -> missing password = false ->
  userModel.findOne db (str email) = None ->
  oid <> "" ->
  exists c,
    cookies_set (fst (register db now salt oid name email password)) = [c]
    /\ (check < (now / 1000 + 604800) * 1000 ->
        userRouter_get_data check
          {| cookie_token := Some (Tok (cookie_value c)); body := b |}
        = let req' := {| cookie_token := Some (Tok (cookie_value c));
                         body := <["userId" := JStr oid]> b |} in
          {| sent := getUserData req'; handler_calls := [req'] |})
    /\ ((now / 1000 + 604800) * 1000 <= check ->
        userRouter_get_data check
          {| cookie_token := Some (Tok (cookie_value c)); body := b |}
        = {| sent := not_authorized; handler_calls := [] |}).
Proof.
  intros Hs Hn He Hp Hfresh Hid.
  rewrite register_fresh by assumption.
  eexists. split; [reflexivity|]. cbn [cookie_value token_cookie].
  split.
  - intros Hlt. apply seconds_lt_iff in Hlt.
    unfold userRouter_get_data.
    erewrite userAuth_accepts; [|reflexivity|now apply jwt_verify_sign].
    cbn [id payload signed_token truthy].
    apply String.eqb_neq in Hid. rewrite Hid. reflexivity.
  - intros Hge. unfold userRouter_get_data.
    rewrite userAuth_rejects; [reflexivity|].
    right. eexists _, _. split; [reflexivity|].
    apply jwt_verify_sign_expired; [assumption|]. change expiresIn_7d with 604800.
    destruct (Z.lt_ge_cases (check / 1000) (now / 1000 + 604800)) as [Hlt|Hle];
      [apply seconds_lt_iff in Hlt; lia|exact Hle].
Qed.

(** X17. However often the link under the form is clicked, the form is in
    one of its two states, "Sign Up" after an even number of clicks and
    "Login" after an odd one; so a submission is handled as a sign-up
    after an even number of clicks and as a login after an odd one. *)
Theorem form_state_after_clicks (clicks : nat) (name email password : string) :
  state_after clicks = (if Nat.even clicks then "Sign Up" else "Login")
  /\ onSubmitHandler (state_after clicks) name email password
     = if Nat.even clicks
       then onSubmitHandler "Sign Up" name email password
       else onSubmitHandler "Login" name email password.
Proof.
  assert (Hstate : state_after clicks = (if Nat.even clicks then "Sign Up" else "Login")).
  { induction clicks as [|n IH]; [reflexivity|].
    cbn [state_after]. rewrite IH, Nat.even_succ, <- Nat.negb_even.
    now destruct (Nat.even n). }
  split; [exact Hstate|]. rewrite Hstate. now destruct (Nat.even clicks).
Qed.

End Server.

(** ** The properties on concrete inputs *)

Lemma demo_compare_hash (pw salt : string) : demo_compare pw (demo_hash pw salt) = true.
Proof. unfold demo_compare, demo_hash. apply String.eqb_refl. Qed.

Lemma demo_hash_nonempty (pw salt : string) : demo_hash pw salt <> "".
Proof. unfold demo_hash. discriminate. Qed.

Lemma demo_env_has_secret : JWT_SECRET demo_env <> "".
Proof. discriminate. Qed.

(** A second account registers on [demo_db]. *)
Lemma register_creates_unverified_account_witness :
  userModel.findOne demo_db "b@x.com" = None
  /\ exists (user : doc) (cookie : Cookie),
       register demo_hash demo_hmac demo_env demo_db demo_now "salt" "65a2"
         (Some "B") (Some "b@x.com") (Some "p2")
       = ({| json := {| success := true; message := None |};
             cookies_set := [cookie] |}, demo_db ++ [user])
       /\ userModel.isAccountVerified user = false
       /\ userModel.verifyOtp user = ""
       /\ userModel.resetOtp user = ""
       /\ httpOnly cookie = true
       /\ maxAge cookie = 604800000.
Proof.
  split; [reflexivity|].
  destruct (register_creates_unverified_account demo_hash demo_hmac demo_env
              demo_hash_nonempty demo_db demo_now "salt" "65a2"
              (Some "B") (Some "b@x.com") (Some "p2")
              demo_env_has_secret eq_refl eq_refl eq_refl eq_refl)
    as (user & cookie & Hrun & _ & _ & _ & _ & Hv & Hvo & Hro & _ & _ & _ & Hh & Hm & _).
  exists user, cookie. repeat split; assumption.
Defined.

(** C8 as stated fails: when [JWT_SECRET] is empty, a registration under a
    fresh email with all fields present stores the account, but
    [jwt.sign] throws: the answer is a failure and no cookie is set. *)
Lemma register_without_secret_counterexample :
  userModel.findOne demo_db "b@x.com" = None
  /\ register demo_hash demo_hmac demo_env_without_secret demo_db demo_now "salt" "65a2"
       (Some "B") (Some "b@x.com") (Some "p2")
     = (res_json false (Some "secretOrPrivateKey must have a value"),
        demo_db ++ [userModel.new "65a2" "B" "b@x.com" (demo_hash "p2" "salt")])
  /\ cookies_set
       (fst (register demo_hash demo_hmac demo_env_without_secret demo_db demo_now
               "salt" "65a2" (Some "B") (Some "b@x.com") (Some "p2"))) = []
  /\ success
       (json (fst (register demo_hash demo_hmac demo_env_without_secret demo_db demo_now
                     "salt" "65a2" (Some "B") (Some "b@x.com") (Some "p2")))) = false.
Proof.
  repeat split.
Qed.

(** The account registers on the empty collection and logs in a day later. *)
Lemma register_login_tokens_same_account_witness :
  userModel.findOne [] "a@x.com" = None
  /\ exists (c1 c2 : Cookie),
       cookies_set (fst (register demo_hash demo_hmac demo_env [] demo_now "salt" "65a1"
                           (Some "A") (Some "a@x.com") (Some "p1"))) = [c1]
       /\ cookies_set
            (fst (login demo_compare demo_hmac demo_env
                    (snd (register demo_hash demo_hmac demo_env [] demo_now "salt" "65a1"
                            (Some "A") (Some "a@x.com") (Some "p1")))
                    (demo_now + 86400000) (Some "a@x.com") (Some "p1"))) = [c2]
       /\ id (payload (cookie_value c1)) = JStr "65a1"
       /\ id (payload (cookie_value c2)) = id (payload (cookie_value c1)).
Proof.
  split; [reflexivity|].
  destruct (register_login_tokens_same_account demo_hash demo_compare demo_hmac demo_env
              demo_compare_hash demo_hash_nonempty [] demo_now (demo_now + 86400000)
              "salt" "65a1" (Some "A") (Some "a@x.com") (Some "p1")
              eq_refl eq_refl eq_refl eq_refl)
    as (Hsame & Hset).
  destruct (Hset demo_env_has_secret) as (c1 & c2 & H1 & H2).
  exists c1, c2. split; [exact H1|]. split; [exact H2|].
  assert (Hin1 : In c1 (cookies_set (fst (register demo_hash demo_hmac demo_env []
                    demo_now "salt" "65a1" (Some "A") (Some "a@x.com") (Some "p1")))))
    by (rewrite H1; now left).
  assert (Hin2 : In c2 (cookies_set (fst (login demo_compare demo_hmac demo_env
                    (snd (register demo_hash demo_hmac demo_env [] demo_now "salt" "65a1"
                            (Some "A") (Some "a@x.com") (Some "p1")))
                    (demo_now + 86400000) (Some "a@x.com") (Some "p1")))))
    by (rewrite H2; now left).
  destruct (Hsame c1 c2 Hin1 Hin2) as (_ & _ & Hid1 & Hid2 & _).
  split; assumption.
Defined.

(** C2 as stated fails: with an empty name, [register] for an email that
    exists answers "Missing Details", a ValidationError, not a
    ConflictError. *)
Lemma register_missing_name_counterexample :
  userModel.findOne demo_db "a@x.com" = Some demo_user
  /\ fst (register demo_hash demo_hmac demo_env demo_db demo_now "salt" "65a2"
            (Some "") (Some "a@x.com") (Some "p1"))
     = res_json false (Some "Missing Details")
  /\ ~ fails_with
        (fst (register demo_hash demo_hmac demo_env demo_db demo_now "salt" "65a2"
                (Some "") (Some "a@x.com") (Some "p1")))
        ConflictError.
Proof.
  split; [reflexivity|]. split; [reflexivity|].
  intros [_ (msg & Hmsg & Hkind)].
  vm_compute in Hmsg. injection Hmsg as <-.
  vm_compute in Hkind. discriminate.
Qed.

(** The account of [demo_db] registers again, and a third time. *)
Lemma register_existing_email_conflict_witness :
  userModel.findOne demo_db "a@x.com" = Some demo_user
  /\ fails_with
       (fst (register demo_hash demo_hmac demo_env demo_db demo_now "salt" "65a2"
               (Some "A") (Some "a@x.com") (Some "p1")))
       ConflictError
  /\ snd (register demo_hash demo_hmac demo_env demo_db demo_now "salt" "65a2"
            (Some "A") (Some "a@x.com") (Some "p1")) = demo_db.
Proof.
  split; [reflexivity|].
  destruct (register_existing_email_conflict demo_hash demo_hmac demo_env
              demo_hash_nonempty demo_db demo_now demo_now "salt" "salt" "65a2" "65a3"
              (Some "A") (Some "A2") (Some "a@x.com") (Some "p1") (Some "p2")
              eq_refl eq_refl eq_refl eq_refl eq_refl)
    as (Hfirst & _).
  destruct (Hfirst demo_user eq_refl) as (Hfail & Hdb & _).
  split; assumption.
Defined.

(** C3 as stated fails: the message of a failed login tells an email that
    has no account from a wrong password; and the empty password, wrong as
    it is, is answered as a missing field, not as bad credentials. *)
Lemma login_failure_messages_counterexample :
  userModel.findOne demo_db "a@x.com" = Some demo_user
  /\ demo_compare "bad" (userModel.password demo_user) = false
  /\ userModel.findOne demo_db "nobody@x.com" = None
  /\ demo_compare "" (userModel.password demo_user) = false
  /\ fst (login demo_compare demo_hmac demo_env demo_db demo_now (Some "a@x.com") (Some ""))
     = res_json false (Some "Email and password are required")
  /\ message (json (fst (login demo_compare demo_hmac demo_env demo_db demo_now
                           (Some "a@x.com") (Some "bad"))))
     = Some "Invalid password"
  /\ message (json (fst (login demo_compare demo_hmac demo_env demo_db demo_now
                           (Some "nobody@x.com") (Some "bad"))))
     = Some "Invalid email"
  /\ message (json (fst (login demo_compare demo_hmac demo_env demo_db demo_now
                           (Some "a@x.com") (Some "bad"))))
     <> message (json (fst (login demo_compare demo_hmac demo_env demo_db demo_now
                              (Some "nobody@x.com") (Some "bad")))).
Proof.
  repeat split; try reflexivity. vm_compute. discriminate.
Qed.

(** A wrong password for the account of [demo_db], and an unknown email. *)
Lemma login_wrong_password_fails_witness :
  userModel.findOne demo_db "a@x.com" = Some demo_user
  /\ demo_compare "bad" (userModel.password demo_user) = false
  /\ userModel.findOne demo_db "nobody@x.com" = None
  /\ login demo_compare demo_hmac demo_env demo_db demo_now (Some "a@x.com") (Some "bad")
     = (res_json false (Some "Invalid password"), demo_db)
  /\ fails_with
       (fst (login demo_compare demo_hmac demo_env demo_db demo_now
               (Some "a@x.com") (Some "bad")))
       AuthError.
Proof.
  split; [reflexivity|]. split; [reflexivity|]. split; [reflexivity|].
  destruct (login_wrong_password_fails demo_compare demo_hmac demo_env demo_db demo_now
              (Some "a@x.com") (Some "nobody@x.com") (Some "bad") demo_user
              eq_refl eq_refl eq_refl eq_refl eq_refl eq_refl)
    as (Hrun & Hfail & _).
  split; assumption.
Defined.

(** C4 as stated fails: a token that verifies, but whose payload has no id,
    is answered the rejection response; the handler is not invoked and no
    id is attached. *)
Lemma userAuth_token_without_id_counterexample :
  jwt_verify demo_hmac (Tok demo_token_without_id) (JWT_SECRET demo_env) demo_now
  = inr (payload demo_token_without_id)
  /\ userAuth demo_hmac demo_env demo_now
       {| cookie_token := Some (Tok demo_token_without_id); body := ∅ |}
     = Reply not_authorized
  /\ handler_calls
       (userRouter_get_data demo_hmac demo_env demo_getUserData demo_now
          {| cookie_token := Some (Tok demo_token_without_id); body := ∅ |})
     = [].
Proof.
  repeat split.
Qed.

(** A request without cookie is rejected; the token of the account lets a
    request through, with the id of the account in its body. *)
Lemma userAuth_gate_witness :
  handler_calls
    (userRouter_get_data demo_hmac demo_env demo_getUserData demo_now
       {| cookie_token := None; body := ∅ |}) = []
  /\ jwt_verify demo_hmac (Tok demo_token) (JWT_SECRET demo_env) demo_now
     = inr (payload demo_token)
  /\ exists req',
       userAuth demo_hmac demo_env demo_now
         {| cookie_token := Some (Tok demo_token); body := ∅ |} = Next req'
       /\ body req' !! "userId" = Some (JStr "65a1").
Proof.
  pose proof (userAuth_gate demo_hmac demo_env demo_getUserData demo_now
                {| cookie_token := None; body := ∅ |}) as [Hreject _].
  pose proof (userAuth_gate demo_hmac demo_env demo_getUserData demo_now
                {| cookie_token := Some (Tok demo_token); body := ∅ |}) as [_ Hpass].
  split.
  - destruct (Hreject (or_introl eq_refl)) as (_ & Hserved & _).
    rewrite Hserved. reflexivity.
  - split; [reflexivity|].
    destruct (Hpass (Tok demo_token) (payload demo_token) eq_refl eq_refl eq_refl)
      as (req' & Hnext & Hid & _).
    exists req'. split; assumption.
Defined.

(** The token of the account against a body in which the client has put
    another [userId]; and the token without id. *)
Lemma userAuth_userId_from_token_witness :
  (exists req',
     userAuth demo_hmac demo_env demo_now
       {| cookie_token := Some (Tok demo_token);
          body := {["userId" := JStr "ffff"]} |} = Next req'
     /\ body req' !! "userId" = Some (JStr "65a1"))
  /\ userAuth demo_hmac demo_env demo_now
       {| cookie_token := Some (Tok demo_token_without_id); body := ∅ |}
     = Reply not_authorized.
Proof.
  split.
  - destruct (userAuth_userId_from_token demo_hmac demo_env demo_getUserData demo_now
                {| cookie_token := Some (Tok demo_token);
                   body := {["userId" := JStr "ffff"]} |})
      as (Hpass & _ & _).
    eexists. split; [reflexivity|].
    destruct (Hpass _ eq_refl) as (_ & c & p & Hc & Hv & _ & Hid).
    injection Hc as <-. vm_compute in Hv. injection Hv as <-. exact Hid.
  - destruct (userAuth_userId_from_token demo_hmac demo_env demo_getUserData demo_now
                {| cookie_token := Some (Tok demo_token_without_id); body := ∅ |})
      as (_ & _ & Hreject).
    apply (Hreject demo_token_without_id eq_refl eq_refl); [|reflexivity].
    intros e He. injection He as <-. unfold demo_now. reflexivity.
Defined.

(** The pending verification code of [demo_db_pending] is used twice, an
    hour after it was sent. *)
Lemma codes_single_use_witness :
  userModel.findById demo_db_pending "65a1" = Some demo_user_pending
  /\ demo_now + 3600000 < userModel.verifyOtpExpireAt demo_user_pending
  /\ exists db1 user1,
       verifyAccount demo_db_pending (demo_now + 3600000) "65a1" (Some "004711")
       = (Done, db1)
       /\ userModel.findById db1 "65a1" = Some user1
       /\ userModel.isAccountVerified user1 = true
       /\ verifyAccount db1 (demo_now + 3600001) "65a1" (Some "004711")
          = (Failed InvalidCodeError, db1).
Proof.
  split; [reflexivity|]. split; [reflexivity|].
  destruct (codes_single_use demo_hash) as (_ & _ & Honce).
  exact (Honce demo_db_pending (demo_now + 3600000) (demo_now + 3600001) "65a1"
           (Some "004711") demo_user_pending eq_refl eq_refl eq_refl eq_refl).
Defined.

(** The pending verification code of [demo_db_pending] is submitted a
    millisecond after its expiry. *)
Lemma verifyAccount_after_expiry_witness :
  userModel.findById demo_db_pending "65a1" = Some demo_user_pending
  /\ userModel.verifyOtpExpireAt demo_user_pending < demo_now + hours_24 + 1
  /\ exists db' user',
       verifyAccount demo_db_pending (demo_now + hours_24 + 1) "65a1" (Some "004711")
       = (Failed ExpiredCodeError, db')
       /\ userModel.findById db' "65a1" = Some user'
       /\ userModel.isAccountVerified user' = false
       /\ userModel.verifyOtp user' = "".
Proof.
  split; [reflexivity|]. split; [reflexivity|].
  destruct (verifyAccount_after_expiry demo_db_pending (demo_now + hours_24 + 1) "65a1"
              (Some "004711") demo_user_pending eq_refl eq_refl eq_refl eq_refl)
    as (db' & user' & Hrun & Hfind & _ & Hstay & Huser & _).
  exists db', user'. split; [exact Hrun|]. split; [exact Hfind|].
  split; [exact (Hstay eq_refl)|]. rewrite Huser. reflexivity.
Defined.

(** The pending reset code of [demo_db_pending] replaces the password "p1"
    by "p2" a minute after it was sent. *)
Lemma resetPassword_changes_login_witness :
  userModel.findOne demo_db_pending "a@x.com" = Some demo_user_pending
  /\ demo_now + 60000 < userModel.resetOtpExpireAt demo_user_pending
  /\ demo_compare "p1" (userModel.password demo_user_pending) = true
  /\ demo_compare "p1" (demo_hash "p2" "salt") = false
  /\ exists db' user',
       resetPassword demo_hash demo_db_pending (demo_now + 60000) "salt"
         (Some "a@x.com") (Some "000042") (Some "p2") = (Done, db')
       /\ userModel.findOne db' "a@x.com" = Some user'
       /\ userModel.password user' = demo_hash "p2" "salt"
       /\ userModel.resetOtp user' = ""
       /\ fails_with
            (fst (login demo_compare demo_hmac demo_env db' (demo_now + 120000)
                    (Some "a@x.com") (Some "p1")))
            AuthError
       /\ success
            (json (fst (login demo_compare demo_hmac demo_env db' (demo_now + 180000)
                          (Some "a@x.com") (Some "p2")))) = true.
Proof.
  split; [reflexivity|]. split; [reflexivity|]. split; [reflexivity|].
  split; [reflexivity|].
  destruct (resetPassword_changes_login demo_hash demo_compare demo_hmac demo_env
              demo_compare_hash demo_db_pending (demo_now + 60000) demo_now
              (demo_now + 120000) (demo_now + 180000) "salt"
              (Some "a@x.com") (Some "000042") (Some "p2") (Some "p1")
              demo_user_pending demo_env_has_secret
              eq_refl eq_refl eq_refl eq_refl eq_refl eq_refl eq_refl eq_refl eq_refl)
    as (db' & user' & Hrun & Hfind & Hpw & Hotp & _ & _ & Hold & Hnew).
  exists db', user'. repeat split; try assumption.
  - apply Hold.
  - apply Hold.
  - rewrite Hnew. reflexivity.
Defined.

(** C5 as stated fails: when the new password is the old one, the old
    password still logs in after the reset; and when [JWT_SECRET] is
    empty, the new password does not log in, [jwt.sign] throwing. *)
Lemma resetPassword_login_counterexample :
  userModel.findOne demo_db_pending "a@x.com" = Some demo_user_pending
  /\ userModel.resetOtp demo_user_pending = "000042"
  /\ demo_now + 60000 < userModel.resetOtpExpireAt demo_user_pending
  /\ demo_compare "p1" (userModel.password demo_user_pending) = true
  /\ fst (resetPassword demo_hash demo_db_pending (demo_now + 60000) "salt"
            (Some "a@x.com") (Some "000042") (Some "p1")) = Done
  /\ success
       (json (fst (login demo_compare demo_hmac demo_env
                     (snd (resetPassword demo_hash demo_db_pending (demo_now + 60000)
                             "salt" (Some "a@x.com") (Some "000042") (Some "p1")))
                     (demo_now + 120000) (Some "a@x.com") (Some "p1")))) = true
  /\ fst (resetPassword demo_hash demo_db_pending (demo_now + 60000) "salt"
            (Some "a@x.com") (Some "000042") (Some "p2")) = Done
  /\ fst (login demo_compare demo_hmac demo_env_without_secret
            (snd (resetPassword demo_hash demo_db_pending (demo_now + 60000)
                    "salt" (Some "a@x.com") (Some "000042") (Some "p2")))
            (demo_now + 120000) (Some "a@x.com") (Some "p2"))
     = res_json false (Some "secretOrPrivateKey must have a value").
Proof.
  repeat split.
Qed.

(** A code is sent to the account of [demo_db]; the code "004711" comes
    from the seed 4711 and no other. *)
Lemma generateOtp_six_digits_uniform_witness :
  generateOtp 42 = "000042"
  /\ (exists user',
        userModel.findById (snd (sendVerificationCode demo_sendMail demo_db demo_now 4711 "65a1"))
          "65a1" = Some user'
        /\ userModel.verifyOtp user' = "004711"
        /\ userModel.verifyOtpExpireAt user' = demo_now + 86400000)
  /\ exists seed,
       (seed < otp_space)%N /\ generateOtp seed = "004711"
       /\ forall seed', (seed' < otp_space)%N -> generateOtp seed' = "004711" -> seed' = seed.
Proof.
  split; [reflexivity|].
  destruct (generateOtp_six_digits_uniform demo_sendMail) as (_ & Hsend & _ & Huniform).
  split.
  - destruct (Hsend demo_db demo_now 4711%N "65a1" demo_user eq_refl eq_refl)
      as (user' & Hfind & Hotp & _ & Hexp).
    exists user'. repeat split; assumption.
  - exact (Huniform "004711" eq_refl).
Defined.

(** ** The further properties on concrete inputs *)


(** The cookie a second account gets when it registers on [demo_db], in
    development. *)
Lemma session_cookie_attributes_witness :
  let c := token_cookie demo_env
             (signed_token demo_hmac (JStr "65a2") "s3cr3t" expiresIn_7d demo_now) in
  cookies_set (fst (register demo_hash demo_hmac demo_env demo_db demo_now "salt" "65a2"
                      (Some "B") (Some "b@x.com") (Some "p2"))) = [c]
  /\ httpOnly c = true
  /\ (sameSite c = "none" <-> secure c = true)
  /\ (secure c = true <-> NODE_ENV demo_env = "production").
Proof.
  intros c. split; [reflexivity|].
  destruct (session_cookie_attributes demo_hash demo_compare demo_hmac demo_env
              demo_db demo_now "salt" "65a2" (Some "B") (Some "b@x.com") (Some "p2")
              c (or_introl (or_introl eq_refl)))
    as (_ & Hh & _ & Hsec & Hnone & _).
  repeat split; first [exact Hh|apply Hnone|apply Hsec].
Defined.

(** The account of [demo_db] logs in and presents its cookie a day later,
    and again eight days later. *)
Lemma login_cookie_authenticates_witness :
  (exists c,
     cookies_set (fst (login demo_compare demo_hmac demo_env demo_db demo_now
                         (Some "a@x.com") (Some "p1"))) = [c]
     /\ handler_calls
          (userRouter_get_data demo_hmac demo_env demo_getUserData
             (demo_now + 86400000)
             {| cookie_token := Some (Tok (cookie_value c)); body := ∅ |})
        = [{| cookie_token := Some (Tok (cookie_value c));
              body := <["userId" := JStr "65a1"]> ∅ |}])
  /\ (exists c,
        cookies_set (fst (login demo_compare demo_hmac demo_env demo_db demo_now
                            (Some "a@x.com") (Some "p1"))) = [c]
        /\ userRouter_get_data demo_hmac demo_env demo_getUserData
             (demo_now + 8 * 86400000)
             {| cookie_token := Some (Tok (cookie_value c)); body := ∅ |}
           = {| sent := not_authorized; handler_calls := [] |}).
Proof.
  assert (Hid : userModel._id demo_user <> "") by discriminate.
  split.
  - destruct (login_cookie_authenticates demo_compare demo_hmac demo_env demo_getUserData
                demo_db demo_now (demo_now + 86400000) (Some "a@x.com") (Some "p1")
                demo_user ∅ demo_env_has_secret eq_refl eq_refl eq_refl eq_refl Hid)
      as (c & Hc & Hlive & _).
    exists c. split; [exact Hc|]. rewrite (Hlive eq_refl). reflexivity.
  - destruct (login_cookie_authenticates demo_compare demo_hmac demo_env demo_getUserData
                demo_db demo_now (demo_now + 8 * 86400000) (Some "a@x.com") (Some "p1")
                demo_user ∅ demo_env_has_secret eq_refl eq_refl eq_refl eq_refl Hid)
      as (c & Hc & _ & Hdead).
    exists c. split; [exact Hc|]. apply Hdead. discriminate.
Defined.

(** The token of the account against a body with another key in it. *)
Lemma userAuth_frame_witness :
  let req := {| cookie_token := Some (Tok demo_token);
                body := {["page" := JNum 2]} |} in
  let req' := {| cookie_token := Some (Tok demo_token);
                 body := <["userId" := JStr "65a1"]> {["page" := JNum 2]} |} in
  userAuth demo_hmac demo_env demo_now req = Next req'
  /\ body req' !! "page" = body req !! "page"
  /\ userAuth demo_hmac demo_env demo_now req' = Next req'.
Proof.
  intros req req'.
  assert (Hnext : userAuth demo_hmac demo_env demo_now req = Next req') by reflexivity.
  destruct (userAuth_frame demo_hmac demo_env demo_now req req' Hnext)
    as (_ & Hframe & Hagain).
  split; [exact Hnext|]. split; [|exact Hagain].
  apply Hframe. discriminate.
Defined.

(** Two registrations under one email and a login, from the empty
    collection. *)
Lemma serve_keeps_collection_valid_witness :
  let calls :=
    [PostRegister demo_now "salt" "65a1" (Some "A") (Some "a@x.com") (Some "p1");
     PostRegister demo_now "salt" "65a2" (Some "A2") (Some "a@x.com") (Some "p2");
     PostLogin demo_now (Some "a@x.com") (Some "p1")] in
  emails_unique (serve demo_hash demo_compare demo_hmac demo_env [] calls) = true
  /\ forallb required_present (serve demo_hash demo_compare demo_hmac demo_env [] calls)
     = true
  /\ length (serve demo_hash demo_compare demo_hmac demo_env [] calls) = 1%nat.
Proof.
  intros calls.
  destruct (serve_keeps_collection_valid demo_hash demo_compare demo_hmac demo_env
              [] calls eq_refl eq_refl) as [Huniq Hreq].
  split; [exact Huniq|]. split; [exact Hreq|reflexivity].
Defined.

(** The account registers on the empty collection; another one registers
    and logs in; the first still logs in. *)
Lemma registered_account_keeps_logging_in_witness :
  let calls :=
    [PostRegister demo_now "salt" "65a2" (Some "B") (Some "b@x.com") (Some "p2");
     PostLogin demo_now (Some "b@x.com") (Some "p2")] in
  userModel.findOne [] "a@x.com" = None
  /\ fst (login demo_compare demo_hmac demo_env
            (serve demo_hash demo_compare demo_hmac demo_env
               (snd (register demo_hash demo_hmac demo_env [] demo_now "salt" "65a1"
                       (Some "A") (Some "a@x.com") (Some "p1")))
               calls)
            (demo_now + 1000) (Some "a@x.com") (Some "p1"))
     = session_response demo_hmac demo_env "65a1" (demo_now + 1000).
Proof.
  intros calls. split; [reflexivity|].
  exact (f_equal fst
           (registered_account_keeps_logging_in demo_hash demo_compare demo_hmac demo_env
              demo_compare_hash demo_hash_nonempty [] demo_now (demo_now + 1000)
              "salt" "65a1" (Some "A") (Some "a@x.com") (Some "p1") calls
              demo_env_has_secret eq_refl eq_refl eq_refl eq_refl)).
Defined.

(** A second account registers on [demo_db]; the login of the first is
    answered as before. *)
Lemma register_leaves_other_logins_witness :
  str (Some "a@x.com") <> str (Some "b@x.com")
  /\ fst (login demo_compare demo_hmac demo_env
            (snd (register demo_hash demo_hmac demo_env demo_db demo_now "salt" "65a2"
                    (Some "B") (Some "b@x.com") (Some "p2")))
            demo_now (Some "a@x.com") (Some "bad"))
     = fst (login demo_compare demo_hmac demo_env demo_db demo_now
              (Some "a@x.com") (Some "bad")).
Proof.
  assert (Hne : str (Some "a@x.com") <> str (Some "b@x.com")) by discriminate.
  split; [exact Hne|].
  exact (register_leaves_other_logins demo_hash demo_compare demo_hmac demo_env
           demo_db demo_now demo_now "salt" "65a2"
           (Some "B") (Some "b@x.com") (Some "p2") (Some "a@x.com") (Some "bad")
           (or_introl Hne)).
Defined.

(** The page against a server holding [demo_db]: the account signs up
    again, then logs in. *)
Lemma login_page_shows_server_answer_witness :
  let post := fun (url : string) (name email password : field) =>
    if String.eqb url register_url
    then Resolved (json (fst (register demo_hash demo_hmac demo_env demo_db demo_now
                                "salt" "65a2" name email password)))
    else Resolved (json (fst (login demo_compare demo_hmac demo_env demo_db demo_now
                                email password))) in
  onSubmitHandler post "Sign Up" "A" "a@x.com" "p1"
  = [ToastError (Some "User already exists")]
  /\ onSubmitHandler post "Login" "A" "a@x.com" "p1"
     = [ToastSuccess "Login successful!"; Navigate "/"].
Proof.
  intros post.
  assert (Hn : "A" <> "") by discriminate.
  assert (He : "a@x.com" <> "") by discriminate.
  assert (Hp : "p1" <> "") by discriminate.
  exact (login_page_shows_server_answer demo_hash demo_compare demo_hmac demo_env post
           demo_hash_nonempty demo_db demo_now "salt" "65a2" "A" "a@x.com" "p1"
           demo_env_has_secret Hn He Hp eq_refl eq_refl).
Defined.

(** A registration under a fresh email on [demo_db], with the secret set
    and without it. *)
Lemma register_cookie_only_on_success_witness :
  snd (register demo_hash demo_hmac demo_env demo_db demo_now "salt" "65a2"
         (Some "B") (Some "b@x.com") (Some "p2"))
  = demo_db ++ [userModel.new "65a2" "B" "b@x.com" (demo_hash "p2" "salt")]
  /\ cookies_set
       (fst (register demo_hash demo_hmac demo_env_without_secret demo_db demo_now
               "salt" "65a2" (Some "B") (Some "b@x.com") (Some "p2"))) = []
  /\ snd (register demo_hash demo_hmac demo_env demo_db demo_now "salt" "65a2"
            (Some "B") (Some "b@x.com") None) = demo_db.
Proof.
  split; [|split].
  - apply (register_cookie_only_on_success demo_hash demo_hmac demo_env demo_db
             demo_now "salt" "65a2" (Some "B") (Some "b@x.com") (Some "p2")).
    reflexivity.
  - apply (register_cookie_only_on_success demo_hash demo_hmac demo_env_without_secret
             demo_db demo_now "salt" "65a2" (Some "B") (Some "b@x.com") (Some "p2")).
    reflexivity.
  - apply (register_cookie_only_on_success demo_hash demo_hmac demo_env demo_db
             demo_now "salt" "65a2" (Some "B") (Some "b@x.com") None);
      [exact demo_env_has_secret|reflexivity].
Defined.

(** The account of [demo_db] logs in with its password. *)
Lemma login_success_iff_witness :
  success (json (fst (login demo_compare demo_hmac demo_env demo_db demo_now
                        (Some "a@x.com") (Some "p1")))) = true
  /\ snd (login demo_compare demo_hmac demo_env demo_db demo_now
            (Some "a@x.com") (Some "p1")) = demo_db.
Proof.
  destruct (login_success_iff demo_compare demo_hmac demo_env demo_db demo_now
              (Some "a@x.com") (Some "p1")) as (Hdb & Hiff & _).
  split; [|exact Hdb].
  apply Hiff. split; [exact demo_env_has_secret|].
  split; [reflexivity|]. split; [reflexivity|].
  exists demo_user. split; reflexivity.
Defined.

(** The token of the account is let through. *)
Lemma userAuth_lets_through_iff_witness :
  exists req',
    userAuth demo_hmac demo_env demo_now
      {| cookie_token := Some (Tok demo_token); body := ∅ |} = Next req'.
Proof.
  apply (userAuth_lets_through_iff demo_hmac demo_env demo_now
           {| cookie_token := Some (Tok demo_token); body := ∅ |}).
  split; [exact demo_env_has_secret|].
  exists demo_token. split; [reflexivity|]. split; [reflexivity|].
  split; [|reflexivity]. intros e [= <-]. reflexivity.
Defined.

(** A second registration and a login with a wrong password leave the
    account of [demo_db] where it was. *)
Lemma serve_never_alters_accounts_witness :
  let calls :=
    [PostRegister demo_now "salt" "65a2" (Some "B") (Some "b@x.com") (Some "p2");
     PostLogin demo_now (Some "a@x.com") (Some "bad")] in
  userModel.findOne (serve demo_hash demo_compare demo_hmac demo_env demo_db calls)
    "a@x.com" = Some demo_user.
Proof.
  intros calls.
  destruct (serve_never_alters_accounts demo_hash demo_compare demo_hmac demo_env
              demo_db calls) as (added & _ & Hfind & _).
  apply Hfind. reflexivity.
Defined.

(** The page when the server cannot be reached. *)
Lemma onSubmitHandler_navigates_iff_success_witness :
  onSubmitHandler (fun _ _ _ _ => Rejected None) "Login" "" "a@x.com" "p1"
  = [ToastError (Some "Something went wrong")]
  /\ ~ In (Navigate "/")
         (onSubmitHandler (fun _ _ _ _ => Rejected None) "Login" "" "a@x.com" "p1").
Proof.
  destruct (onSubmitHandler_navigates_iff_success (fun _ _ _ _ => Rejected None)
              "Login" "" "a@x.com" "p1") as (_ & Hnav & _).
  split; [reflexivity|].
  intros Hin. destruct (Hnav "/" Hin) as (_ & data & Hdata & _). discriminate Hdata.
Defined.

(** A second account registers on [demo_db] and presents its cookie a day
    later. *)
Lemma register_cookie_authenticates_witness :
  userModel.findOne demo_db "b@x.com" = None
  /\ exists c,
       cookies_set (fst (register demo_hash demo_hmac demo_env demo_db demo_now
                           "salt" "65a2" (Some "B") (Some "b@x.com") (Some "p2"))) = [c]
       /\ handler_calls
            (userRouter_get_data demo_hmac demo_env demo_getUserData
               (demo_now + 86400000)
               {| cookie_token := Some (Tok (cookie_value c)); body := ∅ |})
          = [{| cookie_token := Some (Tok (cookie_value c));
                body := <["userId" := JStr "65a2"]> ∅ |}].
Proof.
  split; [reflexivity|].
  assert (Hid : "65a2" <> "") by discriminate.
  destruct (register_cookie_authenticates demo_hash demo_hmac demo_env demo_getUserData
              demo_hash_nonempty demo_db demo_now (demo_now + 86400000) "salt" "65a2"
              (Some "B") (Some "b@x.com") (Some "p2") ∅
              demo_env_has_secret eq_refl eq_refl eq_refl eq_refl Hid)
    as (c & Hc & Hlive & _).
  exists c. split; [exact Hc|]. rewrite (Hlive eq_refl). reflexivity.
Defined.
